(** * Star-history generator: a shallow embedding of
      [.github/scripts/generate-star-history.py] and the properties of its
      fetcher, renderer and driver. *)

From Stdlib Require Import ZArith Lia Ascii.
From stdpp Require Import base tactics option list strings sorting gmap pretty.

Local Open Scope string_scope.
Local Open Scope list_scope.
Local Open Scope Z_scope.

(** ** Python values the script manipulates *)

(** A naive [datetime] as built by [datetime.strptime] with a format that has
    no fractional seconds: Python compares such values field by field. *)
Record datetime := mk_datetime {
  year : Z; month : Z; day : Z; hour : Z; minute : Z; second : Z
}.

Definition datetime_le (a b : datetime) : Prop :=
  year a < year b ∨ (year a = year b ∧
  (month a < month b ∨ (month a = month b ∧
  (day a < day b ∨ (day a = day b ∧
  (hour a < hour b ∨ (hour a = hour b ∧
  (minute a < minute b ∨ (minute a = minute b ∧
   second a <= second b))))))))).

#[global] Instance datetime_eq_dec : EqDecision datetime.
Proof. solve_decision. Defined.

#[global] Instance datetime_le_dec : RelDecision datetime_le.
Proof. intros a b. unfold datetime_le. apply _. Defined.

(** What [response.json()] can return.  Numbers are integers: the script
    only tests a number for truth or tries to iterate it, and a float fares
    there as an integer does. *)
#[local] Unset Elimination Schemes.
Inductive json :=
| JNull
| JBool (b : bool)
| JInt (z : Z)
| JStr (s : string)
| JList (l : list json)
| JDict (d : list (string * json)).
#[local] Set Elimination Schemes.

Inductive exn :=
| JSONDecodeError
| KeyError (k : string)
| TypeError
| ValueError
| IndexError
| FileExistsError (p : list string)
| FileNotFoundError (p : list string)
| NotADirectoryError (p : list string)
| IsADirectoryError (p : list string).

(** Outcome of running a piece of the script: a value, a raised exception, or
    the exhaustion of the unrolling bound of [while True]. *)
Inductive outcome (A : Type) :=
| Ok (a : A)
| Raise (e : exn)
| OutOfFuel.
Arguments Ok {A} a.
Arguments Raise {A} e.
Arguments OutOfFuel {A}.

(** ** The world outside the script *)

(** A dict with string keys; Python dicts keep insertion order and the
    renderer enumerates [repo_data.items()], so order is part of the model. *)
Abbreviation dict V := (list (string * V)).

Fixpoint dict_get {V} (k : string) (d : dict V) : option V :=
  match d with
  | [] => None
  | (k', v) :: d' => if decide (k' = k) then Some v else dict_get k d'
  end.

(** [d[k] = v]: an existing key keeps its position, a new key goes last. *)
Fixpoint dict_set {V} (k : string) (v : V) (d : dict V) : dict V :=
  match d with
  | [] => [(k, v)]
  | (k', v') :: d' =>
      if decide (k' = k) then (k, v) :: d' else (k', v') :: dict_set k v d'
  end.

Definition dict_values {V} (d : dict V) : list V := d.*2.
Definition dict_keys {V} (d : dict V) : list string := d.*1.

Record request := mk_request {
  req_url : string;
  req_headers : dict string;
  req_params : dict Z
}.

Record response := mk_response {
  status_code : Z;
  text : string;
  (** the result of [response.json()]; [None] when the body does not parse *)
  json_body : option json
}.

(** A cumulative series: pairs of a date and a count. *)
Abbreviation series := (list (datetime * Z)).

(** One [ax.plot] call, with those of its arguments that are not floats. *)
Record plot_call := mk_plot {
  plot_dates : list datetime;
  plot_counts : list Z;
  plot_label : string;
  plot_color : string;
  plot_linewidth : Z;
  plot_marker : string
}.

(** The figure: its lines and the settings the script gives it. *)
Record figure := mk_figure {
  fig_lines : list plot_call;
  fig_yscale : string;
  fig_xlabel : string;
  fig_ylabel : string;
  fig_title : string;
  fig_xformat : string;
  fig_minor_months : list Z;
  fig_legend_loc : string
}.

(** File-system nodes; a path is its list of components below the working
    directory, as a [pathlib.Path] is. *)
Inductive file_content :=
| Bytes (s : string)
| Image (format : string) (fig : figure).

Inductive node :=
| Dir
| File (c : file_content).

Record world := mk_world {
  stdout : list string;
  sent : list request;
  fs : gmap (list string) node
}.

(** The script as a state transformer that may raise. *)
Definition M (A : Type) := world → outcome A * world.

Definition ret {A} (a : A) : M A := λ w, (Ok a, w).
Definition raise {A} (e : exn) : M A := λ w, (Raise e, w).
Definition diverge {A} : M A := λ w, (OutOfFuel, w).
Definition bind {A B} (m : M A) (k : A → M B) : M B := λ w,
  match m w with
  | (Ok a, w') => k a w'
  | (Raise e, w') => (Raise e, w')
  | (OutOfFuel, w') => (OutOfFuel, w')
  end.
Definition lift {A} (o : outcome A) : M A := λ w, (o, w).

Notation "x <- m ;; k" := (bind m (λ x, k))
  (at level 100, m at next level, right associativity).
Notation "m ;;; k" := (bind m (λ _, k))
  (at level 100, right associativity).

Definition print (line : string) : M unit := λ w,
  (Ok (), mk_world (stdout w ++ [line]) (sent w) (fs w)).

(** ** Configuration constants *)

Definition REPOS : list string := [
  "bittner/pyclean";
  "painless-software/python-cli-test-helpers";
  "painless-software/django-probes";
  "behave/behave-django";
  "jazzband/django-analytical";
  "behave/behave"
].

Definition OUTPUT_DIR : list string := ["star-history"].
Definition OUTPUT_FILE : list string := OUTPUT_DIR ++ ["star-history.svg"].

Definition MAX_PAGES : Z := 100.
Definition PER_PAGE : Z := 100.

Definition COLORS : list string := [
  "#1f77b4"; "#ff7f0e"; "#2ca02c"; "#d62728"; "#9467bd"; "#8c564b";
  "#e377c2"; "#7f7f7f"; "#bcbd22"; "#17becf"
].

Definition STARRED_AT_FORMAT : string := "%Y-%m-%dT%H:%M:%SZ".

Definition newline : string := String (Ascii.ascii_of_nat 10) "".

(** ** Python built-ins on JSON values *)

(** [bool(x)] *)
Definition truthy (x : json) : bool :=
  match x with
  | JNull => false
  | JBool b => b
  | JInt z => negb (z =? 0)
  | JStr s => negb (String.eqb s "")
  | JList l => match l with [] => false | _ => true end
  | JDict d => match d with [] => false | _ => true end
  end.

(** The items a [for] loop over [x] visits. *)
Definition py_iter (x : json) : outcome (list json) :=
  match x with
  | JList l => Ok l
  | JDict d => Ok (map (λ kv, JStr kv.1) d)
  | JStr s => Ok (map (λ c, JStr (String c "")) (String.list_ascii_of_string s))
  | _ => Raise TypeError
  end.

(** [len(x)] *)
Definition py_len (x : json) : outcome Z :=
  match x with
  | JList l => Ok (Z.of_nat (length l))
  | JDict d => Ok (Z.of_nat (length d))
  | JStr s => Ok (Z.of_nat (String.length s))
  | _ => Raise TypeError
  end.

(** [x[k]] for a string key [k] *)
Definition py_getitem (x : json) (k : string) : outcome json :=
  match x with
  | JDict d =>
      match dict_get k d with
      | Some v => Ok v
      | None => Raise (KeyError k)
      end
  | _ => Raise TypeError
  end.

(** [s.split(sep)] for a one-character separator *)
Fixpoint split (sep : Ascii.ascii) (s : string) : list string :=
  match s with
  | EmptyString => [EmptyString]
  | String c s' =>
      if decide (c = sep) then EmptyString :: split sep s'
      else match split sep s' with
           | [] => [String c EmptyString]
           | h :: t => String c h :: t
           end
  end.

(** [a, b = xs] *)
Definition unpack2 (xs : list string) : outcome (string * string) :=
  match xs with
  | [a; b] => Ok (a, b)
  | _ => Raise ValueError
  end.

(** [str(path)] of a relative path *)
Fixpoint path_str (p : list string) : string :=
  match p with
  | [] => "."
  | [c] => c
  | c :: p' => c +:+ "/" +:+ path_str p'
  end.

(** ** The script, over an arbitrary environment *)

Section Script.

(** [os.environ.get("GITHUB_TOKEN")] *)
Variable GITHUB_TOKEN : option string.

(** [datetime.strptime]; [None] stands for its [ValueError]. *)
Variable strptime : string → string → option datetime.

(** The remote API: the response to the n-th request of the run. *)
Variable network : nat → request → response.

(** [if GITHUB_TOKEN:] holds for a non-empty string only. *)
Definition token_set : bool :=
  match GITHUB_TOKEN with
  | Some t => negb (String.eqb t "")
  | None => false
  end.

Definition token_text : string := default "" GITHUB_TOKEN.

(** [requests.get(url, headers=headers, params=params)] *)
Definition requests_get (url : string) (headers : dict string)
    (params : dict Z) : M response := λ w,
  let req := mk_request url headers params in
  (Ok (network (length (sent w)) req),
   mk_world (stdout w) (sent w ++ [req]) (fs w)).

(** [response.json()] *)
Definition response_json (r : response) : M json :=
  match json_body r with
  | Some data => ret data
  | None => raise JSONDecodeError
  end.

(** [datetime.strptime(v, fmt)] on a JSON value *)
Definition py_strptime (v : json) (fmt : string) : outcome datetime :=
  match v with
  | JStr s =>
      match strptime s fmt with
      | Some d => Ok d
      | None => Raise ValueError
      end
  | _ => Raise TypeError
  end.

(** The body of [for item in data:], appending to [stars]. *)
Fixpoint collect (items : list json) (stars : list datetime)
    : outcome (list datetime) :=
  match items with
  | [] => Ok stars
  | item :: rest =>
      match py_getitem item "starred_at" with
      | Ok v =>
          match py_strptime v STARRED_AT_FORMAT with
          | Ok starred_at => collect rest (stars ++ [starred_at])
          | Raise e => Raise e
          | OutOfFuel => OutOfFuel
          end
      | Raise e => Raise e
      | OutOfFuel => OutOfFuel
      end
  end.

Definition page_params (page : Z) : dict Z :=
  [("page", page); ("per_page", PER_PAGE)].

(** The [while True:] loop of [get_star_history], unrolled at most [fuel]
    times. *)
Fixpoint fetch_pages (fuel : nat) (repo url : string)
    (headers : dict string) (page : Z) (stars : list datetime)
    : M (list datetime) :=
  match fuel with
  | O => diverge
  | S fuel' =>
      response <- requests_get url headers (page_params page) ;;
      if negb (status_code response =? 200) then
        (print ("Error fetching data for " +:+ repo +:+ ": "
                +:+ pretty (status_code response)) ;;;
         print ("Response: " +:+ text response) ;;;
         ret stars)
      else
        data <- response_json response ;;
        if negb (truthy data) then ret stars
        else
          items <- lift (py_iter data) ;;
          stars <- lift (collect items stars) ;;
          n <- lift (py_len data) ;;
          (print ("  Fetched page " +:+ pretty page +:+ " ("
                  +:+ pretty n +:+ " stars)") ;;;
           if n <? PER_PAGE then ret stars
           else
             let page := page + 1 in
             if page >? MAX_PAGES then
               (print ("  Reached maximum page limit for " +:+ repo) ;;;
                ret stars)
             else fetch_pages fuel' repo url headers page stars)
  end.

Definition api_url (owner name : string) : string :=
  "https://api.github.com/repos/" +:+ owner +:+ "/" +:+ name
  +:+ "/stargazers".

Definition api_headers : dict string :=
  let headers := [("Accept", "application/vnd.github.v3.star+json")] in
  if token_set then dict_set "Authorization" ("token " +:+ token_text) headers
  else headers.

(** [[(date, idx + 1) for idx, date in enumerate(stars)]] *)
Definition cumulative (stars : list datetime) : series :=
  imap (λ idx date, (date, Z.of_nat idx + 1)) stars.

Definition get_star_history (repo : string) : M series :=
  parts <- lift (unpack2 (split "/"%char repo)) ;;
  let '(owner, name) := parts in
  let url := api_url owner name in
  let headers := api_headers in
  (print ("Fetching star data for " +:+ repo +:+ "...") ;;;
   stars <- fetch_pages (Z.to_nat MAX_PAGES) repo url headers 1 [] ;;
   let stars := merge_sort datetime_le stars in
   let cumulative := cumulative stars in
   (print ("  Total stars: " +:+ pretty (Z.of_nat (length stars))) ;;;
    ret cumulative)).

(** *** Renderer *)

(** The loop [for idx, (repo, data) in enumerate(repo_data.items())] with
    the [ax.plot] calls made so far in [lines]. *)
Fixpoint plot_all (idx : nat) (items : list (string * series))
    (lines : list plot_call) : outcome (list plot_call) :=
  match items with
  | [] => Ok lines
  | (repo, data) :: rest =>
      match data with
      | [] => plot_all (S idx) rest lines
      | _ :: _ =>
          let dates := map fst data in
          let counts := map snd data in
          match COLORS !! (idx `mod` length COLORS)%nat with
          | Some color =>
              plot_all (S idx) rest
                (lines ++ [mk_plot dates counts repo color 2 "o"])
          | None => Raise IndexError
          end
      end
  end.

(** [os.mkdir] applied to the successive prefixes of a path, which is what
    [Path.mkdir(parents=True, exist_ok=True)] amounts to: an existing
    directory is accepted, anything else in the way is an error. *)
Fixpoint mkdir_from (base rest : list string) (t : gmap (list string) node)
    : outcome (gmap (list string) node) :=
  match rest with
  | [] => Ok t
  | c :: rest' =>
      let p := base ++ [c] in
      match t !! p with
      | Some Dir => mkdir_from p rest' t
      | Some (File _) =>
          Raise (match rest' with
                 | [] => FileExistsError p
                 | _ :: _ => NotADirectoryError p
                 end)
      | None => mkdir_from p rest' (<[p := Dir]> t)
      end
  end.

Definition mkdir_parents_exist_ok (p : list string) : M unit := λ w,
  match mkdir_from [] p (fs w) with
  | Ok t => (Ok (), mk_world (stdout w) (sent w) t)
  | Raise e => (Raise e, w)
  | OutOfFuel => (OutOfFuel, w)
  end.

(** [plt.savefig(path, format=...)]: the file is opened for writing and
    truncated. *)
Definition savefig (p : list string) (format : string) (fig : figure)
    : M unit := λ w,
  let parent := removelast p in
  match (if decide (parent = []) then Some Dir else fs w !! parent) with
  | Some Dir =>
      match fs w !! p with
      | Some Dir => (Raise (IsADirectoryError p), w)
      | _ => (Ok (), mk_world (stdout w) (sent w)
                       (<[p := File (Image format fig)]> (fs w)))
      end
  | Some (File _) => (Raise (NotADirectoryError p), w)
  | None => (Raise (FileNotFoundError p), w)
  end.

Definition generate_chart (repo_data : dict series) : M unit :=
  lines <- lift (plot_all 0 repo_data []) ;;
  let fig := mk_figure lines "log" "Date" "Stars (log scale)"
               "GitHub Star History" "%Y-%m" [1; 4; 7; 10] "upper left" in
  (mkdir_parents_exist_ok OUTPUT_DIR ;;;
   savefig OUTPUT_FILE "svg" fig ;;;
   print (newline +:+ "Chart saved to " +:+ path_str OUTPUT_FILE)).

(** *** Driver *)

(** The loop [for repo in REPOS:] filling [repo_data]. *)
Fixpoint fetch_all (repos : list string) (repo_data : dict series)
    : M (dict series) :=
  match repos with
  | [] => ret repo_data
  | repo :: rest =>
      data <- get_star_history repo ;;
      fetch_all rest (dict_set repo data repo_data)
  end.

(** [any(xs)] over lists, which are true when non-empty *)
Definition py_any (xs : list series) : bool :=
  existsb (λ data, match data with [] => false | _ :: _ => true end) xs.

Definition main : M Z :=
  ((if negb token_set then
      (print "Warning: GITHUB_TOKEN not set. API rate limits will be restrictive." ;;;
       print "Set GITHUB_TOKEN environment variable for better rate limits.")
    else ret ()) ;;;
   repo_data <- fetch_all REPOS [] ;;
   if py_any (dict_values repo_data) then
     (generate_chart repo_data ;;;
      print (newline +:+ "Star history chart generated successfully!") ;;;
      ret 0)
   else
     (print (newline +:+ "Error: No data fetched for any repository.") ;;;
      ret 1)).

(** [if __name__ == "__main__": sys.exit(main())]: the status the process
    ends with.  The value [main] returns is handed to [sys.exit]; an
    exception that leaves [main] is caught by nobody, and the interpreter
    then ends with status 1. *)
Definition exit_status (w : world) : option Z :=
  match (main w).1 with
  | Ok code => Some code
  | Raise _ => Some 1
  | OutOfFuel => None
  end.

End Script.

(** ** Vocabulary for the statements *)

Definition datetime_lt (a b : datetime) : Prop := datetime_le a b ∧ a ≠ b.

(** The world after printing some lines. *)
Definition printed (w : world) (lines : list string) : world :=
  mk_world (stdout w ++ lines) (sent w) (fs w).

(** The world after some requests and some printed lines. *)
Definition after (w : world) (reqs : list request) (lines : list string)
    : world :=
  mk_world (stdout w ++ lines) (sent w ++ reqs) (fs w).

(** The request the loop sends for [page]. *)
Definition page_request (url : string) (headers : dict string) (page : Z)
    : request :=
  mk_request url headers (page_params page).

(** The response the loop gets for [page] when it asks in world [w]. *)
Definition answer (network : nat → request → response) (url : string)
    (headers : dict string) (w : world) (page : Z) : response :=
  network (length (sent w)) (page_request url headers page).

(** The response to the [i]-th request (from 0) of a loop started in world
    [w] at [page]. *)
Definition nth_answer (network : nat → request → response) (url : string)
    (headers : dict string) (w : world) (page : Z) (i : nat) : response :=
  network (length (sent w) + i)%nat
    (page_request url headers (page + Z.of_nat i)).

Definition requests_from (url : string) (headers : dict string) (page : Z)
    (n : nat) : list request :=
  (λ i, page_request url headers (page + Z.of_nat i)) <$> seq 0 n.

(** A status-200 response whose body is a JSON list of [items] whose
    timestamps all parse, to [ds]. *)
Definition good_page (strptime : string → string → option datetime)
    (r : response) (items : list json) (ds : list datetime) : Prop :=
  status_code r = 200 ∧ json_body r = Some (JList items) ∧
  collect strptime items [] = Ok ds.

(** A page that is not the last one the server has: 100 items or more. *)
Definition full_page (strptime : string → string → option datetime)
    (r : response) : Prop :=
  ∃ items ds,
    good_page strptime r items ds ∧ PER_PAGE <= Z.of_nat (length items).

(** An item of a stargazers page from which no timestamp can be read: it has
    no ["starred_at"] field, or the field does not parse in the format the
    script asks for. *)
Definition malformed (strptime : string → string → option datetime)
    (item : json) : Prop :=
  ∃ d, item = JDict d ∧
    (dict_get "starred_at" d = None ∨
     ∃ s, dict_get "starred_at" d = Some (JStr s) ∧
          strptime s STARRED_AT_FORMAT = None).

(** The lines the fetcher prints. *)
Definition error_lines (repo : string) (r : response) : list string :=
  ["Error fetching data for " +:+ repo +:+ ": " +:+ pretty (status_code r);
   "Response: " +:+ text r].

Definition fetched_line (page n : Z) : string :=
  "  Fetched page " +:+ pretty page +:+ " (" +:+ pretty n +:+ " stars)".

Definition cap_line (repo : string) : string :=
  "  Reached maximum page limit for " +:+ repo.

Definition total_line (stars : list datetime) : string :=
  "  Total stars: " +:+ pretty (Z.of_nat (length stars)).

(** The lines printed and the timestamps gathered over [k] pages. *)
Definition fetched_lines (page : Z) (items : nat → list json) (k : nat)
    : list string :=
  (λ i, fetched_line (page + Z.of_nat i) (Z.of_nat (length (items i))))
    <$> seq 0 k.

Definition gathered (ds : nat → list datetime) (k : nat) : list datetime :=
  concat (ds <$> seq 0 k).

(** The world in which [get_star_history] enters its loop. *)
Definition started (repo : string) (w : world) : world :=
  printed w ["Fetching star data for " +:+ repo +:+ "..."].

(** The loop as [get_star_history] runs it for [repo]. *)
Definition collection (tok : option string)
    (strptime : string → string → option datetime)
    (network : nat → request → response) (repo owner name : string)
    (w : world) : outcome (list datetime) * world :=
  fetch_pages strptime network (Z.to_nat MAX_PAGES) repo (api_url owner name)
    (api_headers tok) 1 [] (started repo w).

(** The world in which the request for page [k + 1] is made, after [k] full
    pages. *)
Definition world_after_pages (tok : option string) (repo owner name : string)
    (w : world) (k : nat) (items : nat → list json) : world :=
  after (started repo w)
    (requests_from (api_url owner name) (api_headers tok) 1 k)
    (fetched_lines 1 items k).

(** The [ax.plot] call, if any, that iteration [idx] of the renderer's loop
    makes for the entry [(repo, data)]. *)
Definition line_for (idx : nat) (entry : string * series)
    : option plot_call :=
  match plot_all idx [entry] [] with
  | Ok [line] => Some line
  | _ => None
  end.

(** The line drawn for the entry at position [j] of the mapping. *)
Definition plotted (repo_data : dict series) (j : nat) : option plot_call :=
  repo_data !! j ≫= line_for j.

(** The mapping with the series at position [i] made empty. *)
Definition emptied (i : nat) (repo_data : dict series) : dict series :=
  alter (λ entry, (entry.1, [])) i repo_data.

(** All the lines of the chart, in the order they are drawn. *)
Definition chart_lines (repo_data : dict series) : list plot_call :=
  omap id (imap line_for repo_data).

(** What the chart shows of each line: the label and the two coordinate
    lists. *)
Definition line_data (line : plot_call)
    : string * list datetime * list Z :=
  (plot_label line, plot_dates line, plot_counts line).

Definition has_data (entry : string * series) : bool :=
  match entry.2 with [] => false | _ :: _ => true end.

(** The figure [generate_chart] saves. *)
Definition chart_of (repo_data : dict series) : figure :=
  mk_figure (chart_lines repo_data) "log" "Date" "Stars (log scale)"
    "GitHub Star History" "%Y-%m" [1; 4; 7; 10] "upper left".

(** Nothing of the wrong kind sits where the output goes: the directory path
    is free or a directory, the file path is free or a file. *)
Definition unobstructed (t : gmap (list string) node) : Prop :=
  (t !! OUTPUT_DIR = None ∨ t !! OUTPUT_DIR = Some Dir) ∧
  t !! OUTPUT_FILE ≠ Some Dir.

Definition saved_line : string :=
  newline +:+ "Chart saved to star-history/star-history.svg".

(** The disk after a successful [generate_chart]. *)
Definition written (repo_data : dict series) (t : gmap (list string) node)
    : gmap (list string) node :=
  <[OUTPUT_FILE := File (Image "svg" (chart_of repo_data))]>
    (<[OUTPUT_DIR := Dir]> t).

(** The lines the driver prints. *)
Definition warning_lines : list string :=
  ["Warning: GITHUB_TOKEN not set. API rate limits will be restrictive.";
   "Set GITHUB_TOKEN environment variable for better rate limits."].

Definition success_line : string :=
  newline +:+ "Star history chart generated successfully!".

Definition failure_line : string :=
  newline +:+ "Error: No data fetched for any repository.".

(** The world in which the loop over the repositories starts. *)
Definition warned (tok : option string) (w : world) : world :=
  if token_set tok then w else printed w warning_lines.

(** [w'] is [w] after some printing and some requests, all of which carry
    the headers [get_star_history] builds. *)
Definition run_extends (tok : option string) (w w' : world) : Prop :=
  (∃ lines, stdout w' = stdout w ++ lines) ∧
  (∃ reqs, sent w' = sent w ++ reqs ∧
           Forall (λ r, req_headers r = api_headers tok) reqs).

(** What the loop over the repositories does, one call after the other. *)
Inductive fetched (tok : option string)
    (strptime : string → string → option datetime)
    (network : nat → request → response)
    : world → list string → dict series → world → Prop :=
| fetched_nil w : fetched tok strptime network w [] [] w
| fetched_cons w repo data w1 repos repo_data w2 :
    get_star_history tok strptime network repo w = (Ok data, w1) →
    fetched tok strptime network w1 repos repo_data w2 →
    fetched tok strptime network w (repo :: repos) ((repo, data) :: repo_data)
      w2.

(** Number of occurrences of the character [c] in [s]. *)
Fixpoint count_char (c : Ascii.ascii) (s : string) : nat :=
  match s with
  | EmptyString => 0
  | String c' s' => (if decide (c' = c) then 1 else 0) + count_char c s'
  end.

(** [sep.join(parts)] for a one-character separator *)
Fixpoint join (sep : Ascii.ascii) (parts : list string) : string :=
  match parts with
  | [] => EmptyString
  | [part] => part
  | part :: rest => part +:+ String sep (join sep rest)
  end.

(** The address [get_star_history] asks for a repository written
    owner/name. *)
Definition stargazers_url (repo : string) : string :=
  "https://api.github.com/repos/" +:+ repo +:+ "/stargazers".

(** An item that is no star record at all: not a JSON object, or an object
    whose ["starred_at"] is not a string. *)
Definition not_a_star_record (item : json) : Prop :=
  (∀ d, item ≠ JDict d) ∨
  ∃ d v, item = JDict d ∧ dict_get "starred_at" d = Some v ∧
         ∀ s, v ≠ JStr s.

#[global] Instance datetime_lt_dec : RelDecision datetime_lt.
Proof. intros a b. unfold datetime_lt. apply _. Defined.

(** How many of the timestamps [stars] are at or before [t], and how many
    strictly before it. *)
Definition stars_until (t : datetime) (stars : list datetime) : nat :=
  length (filter (λ s, datetime_le s t) stars).

Definition stars_before (t : datetime) (stars : list datetime) : nat :=
  length (filter (λ s, datetime_lt s t) stars).

(** The requests of a run that asks [n] pages of each repository of
    [repos] in turn, for the page counts [ns]. *)
Definition run_requests (tok : option string) (repos : list string)
    (ns : list nat) : list request :=
  concat (zip_with
            (λ repo n, requests_from (stargazers_url repo) (api_headers tok)
                         1 n)
            repos ns).

(** How many lines of the chart are drawn before the one of the entry at
    position [j]: the entries before it that have data. *)
Definition drawn_before (repo_data : dict series) (j : nat) : nat :=
  length (filter (λ entry, has_data entry = true) (take j repo_data)).

(** ** A concrete environment for the examples *)

Module Sample.

Definition T1 : datetime := mk_datetime 2020 1 1 0 0 0.
Definition T2 : datetime := mk_datetime 2021 6 15 12 30 0.
Definition T3 : datetime := mk_datetime 2022 12 31 23 59 59.

(** A parser that knows three timestamps and rejects everything else. *)
Definition strptime (s fmt : string) : option datetime :=
  if decide (fmt = STARRED_AT_FORMAT) then
    if decide (s = "2020-01-01T00:00:00Z") then Some T1
    else if decide (s = "2021-06-15T12:30:00Z") then Some T2
    else if decide (s = "2022-12-31T23:59:59Z") then Some T3
    else None
  else None.

Definition star (s : string) : json :=
  JDict [("starred_at", JStr s); ("user", JNull)].

Definition items213 : list json :=
  [star "2021-06-15T12:30:00Z"; star "2020-01-01T00:00:00Z";
   star "2022-12-31T23:59:59Z"].

Definition page213 : json := JList items213.

Definition not_found : response := mk_response 404 "Not Found" None.

(** The first request of the run gets three stars out of order, every
    later one is refused. *)
Definition net_one (n : nat) (r : request) : response :=
  match n with
  | O => mk_response 200 "[...]" (Some page213)
  | S _ => not_found
  end.

(** Every request gets the same short page. *)
Definition net_short (n : nat) (r : request) : response :=
  mk_response 200 "[...]" (Some page213).

(** Every request is refused. *)
Definition net_down (n : nat) (r : request) : response := not_found.

(** Every request gets a 200 whose body is an HTML page, not JSON. *)
Definition net_garbled (n : nat) (r : request) : response :=
  mk_response 200 "<html>Bad gateway</html>" None.

(** Every request gets a 200 with the body [null]. *)
Definition net_null (n : nat) (r : request) : response :=
  mk_response 200 "null" (Some JNull).

(** Every request gets a 200 with an error object as its body. *)
Definition net_object (n : nat) (r : request) : response :=
  mk_response 200 "{...}" (Some (JDict [("message", JStr "Moved")])).

(** Every request gets a full page of 100 stars. *)
Definition items_full : list json :=
  replicate 100 (star "2020-01-01T00:00:00Z").

Definition net_full (n : nat) (r : request) : response :=
  mk_response 200 "[...]" (Some (JList items_full)).

(** The three stars in chronological order. *)
Definition items123 : list json :=
  [star "2020-01-01T00:00:00Z"; star "2021-06-15T12:30:00Z";
   star "2022-12-31T23:59:59Z"].

Definition net_sorted (n : nat) (r : request) : response :=
  mk_response 200 "[...]" (Some (JList items123)).




Definition empty_world : world := mk_world [] [] ∅.

(** A world in which a regular file sits where the directory should be. *)
Definition blocked_world : world :=
  mk_world [] [] (<[OUTPUT_DIR := File (Bytes "notes")]> ∅).

(** A world left behind by an earlier run of some other tool. *)
Definition stale_world : world :=
  mk_world [] []
    (<[OUTPUT_FILE := File (Bytes "<svg>old</svg>")]>
       (<[OUTPUT_DIR := Dir]> ∅)).

Definition one_series : dict series :=
  [("bittner/pyclean", [(T1, 1); (T2, 2)]); ("behave/behave", [])].

Definition two_series : dict series :=
  [("bittner/pyclean", [(T1, 1); (T2, 2)]); ("behave/behave", [(T3, 1)])].

(** A repository without data between two that have some. *)
Definition gap_series : dict series :=
  [("bittner/pyclean", [(T1, 1); (T2, 2)]);
   ("bittner/django-apptemplate", []);
   ("behave/behave", [(T3, 1)])].

End Sample.

(** The sample runs of the loop over the repositories. *)
Module SampleRuns.

(** Only the first repository has stars. *)
Definition data_one : dict series :=
  [("bittner/pyclean", [(Sample.T1, 1); (Sample.T2, 2); (Sample.T3, 3)]);
   ("painless-software/python-cli-test-helpers", []);
   ("painless-software/django-probes", []);
   ("behave/behave-django", []);
   ("jazzband/django-analytical", []);
   ("behave/behave", [])].

Definition world_one : world :=
  Eval vm_compute in
    (fetch_all None Sample.strptime Sample.net_one REPOS []
       (warned None Sample.empty_world)).2.

(** Every request is refused. *)
Definition data_down : dict series := (λ repo, (repo, [])) <$> REPOS.

Definition world_down : world :=
  Eval vm_compute in
    (fetch_all None Sample.strptime Sample.net_down REPOS []
       (warned None Sample.empty_world)).2.

End SampleRuns.

(** * Properties *)

(** ** Ordering of timestamps *)

#[global] Instance datetime_le_total : Total datetime_le.
Proof. intros [] []; unfold datetime_le; simpl; lia. Qed.

#[global] Instance datetime_le_trans : Transitive datetime_le.
Proof. intros [] [] []; unfold datetime_le; simpl; lia. Qed.

#[global] Instance datetime_le_refl : Reflexive datetime_le.
Proof. intros []; unfold datetime_le; simpl; lia. Qed.

#[global] Instance datetime_le_antisymm : AntiSymm (=) datetime_le.
Proof.
  intros [] []; unfold datetime_le; simpl; intros H1 H2.
  f_equal; lia.
Qed.

(** ** The conversion to a cumulative series *)

Lemma cumulative_length stars : length (cumulative stars) = length stars.
Proof. apply length_imap. Qed.

Lemma cumulative_dates stars : (cumulative stars).*1 = stars.
Proof.
  unfold cumulative. rewrite fmap_imap.
  rewrite (imap_ext _ (const id)) by done.
  rewrite imap_const. apply list_fmap_id.
Qed.

Lemma cumulative_counts stars :
  (cumulative stars).*2 = (λ i, Z.of_nat i) <$> seq 1 (length stars).
Proof.
  unfold cumulative. rewrite fmap_imap.
  rewrite (imap_ext _ (λ i _, Z.of_nat (1 + i))) by (intros; simpl; lia).
  rewrite (imap_seq stars (λ i, Z.of_nat i) 1). done.
Qed.

Lemma sort_three (a b c : datetime) :
  datetime_lt a b → datetime_lt b c →
  merge_sort datetime_le [b; a; c] = [a; b; c].
Proof.
  intros [Hab _] [Hbc _].
  apply (Sorted_unique datetime_le).
  - apply Sorted_merge_sort, _.
  - repeat first [ apply Sorted_cons | apply Sorted_nil
                 | apply HdRel_cons | apply HdRel_nil ]; assumption.
  - rewrite merge_sort_Permutation. apply Permutation_swap.
Qed.

(** ** One iteration of the pagination loop *)

Section Fetcher.

Variable strptime : string → string → option datetime.
Variable network : nat → request → response.
Variables (repo url : string) (headers : dict string).

Local Abbreviation page_request := (page_request url headers).
Local Abbreviation answer := (answer network url headers).
Local Abbreviation nth_answer := (nth_answer network url headers).
Local Abbreviation requests_from := (requests_from url headers).
Local Abbreviation good_page := (good_page strptime).
Local Abbreviation full_page := (full_page strptime).
Local Abbreviation error_lines := (error_lines repo).
Local Abbreviation cap_line := (cap_line repo).

Lemma collect_app items : ∀ stars,
  collect strptime items stars =
  match collect strptime items [] with
  | Ok ds => Ok (stars ++ ds)
  | Raise e => Raise e
  | OutOfFuel => OutOfFuel
  end.
Proof.
  induction items as [|item items IH]; intros stars; simpl.
  - by rewrite app_nil_r.
  - destruct (py_getitem item "starred_at") as [v| |]; try done.
    destruct (py_strptime strptime v STARRED_AT_FORMAT) as [d| |]; try done.
    rewrite (IH (stars ++ [d])), (IH [d]).
    destruct (collect strptime items []); try done.
    by rewrite <- app_assoc.
Qed.

Lemma collect_length items : ∀ stars ds,
  collect strptime items stars = Ok ds →
  length ds = (length stars + length items)%nat.
Proof.
  induction items as [|item items IH]; intros stars ds; simpl.
  - intros [= <-]. lia.
  - destruct (py_getitem item "starred_at") as [v| |]; try done.
    destruct (py_strptime strptime v STARRED_AT_FORMAT) as [d| |]; try done.
    intros H. apply IH in H. rewrite length_app in H. simpl in H. lia.
Qed.

Lemma after_after w r1 l1 r2 l2 :
  after (after w r1 l1) r2 l2 = after w (r1 ++ r2) (l1 ++ l2).
Proof. unfold after; simpl. by rewrite <- !app_assoc. Qed.

Lemma after_nil w : after w [] [] = w.
Proof. destruct w. unfold after; simpl. by rewrite !app_nil_r. Qed.

(** A non-200 status: the two error lines are printed and the loop ends
    with what it had. *)
Lemma fetch_pages_error fuel page stars w :
  status_code (answer w page) ≠ 200 →
  fetch_pages strptime network (S fuel) repo url headers page stars w =
  (Ok stars, after w [page_request page] (error_lines (answer w page))).
Proof.
  intros Hs. simpl. unfold bind at 1. simpl.
  fold (page_request page). fold (answer w page).
  destruct (Z.eqb_spec (status_code (answer w page)) 200); [done|].
  simpl. unfold bind, print, ret, after; simpl.
  by rewrite <- app_assoc.
Qed.

Ltac open_iteration w page :=
  simpl; unfold bind at 1; simpl;
  fold (page_request page); fold (answer w page).

Ltac open_body w page Hs Hj :=
  open_iteration w page; rewrite Hs;
  change (negb (200 =? 200)) with false; cbv iota;
  unfold bind at 1, response_json; rewrite Hj; unfold ret, raise;
  cbv iota beta.

(** Status 200 with a body that is not JSON: [response.json()] raises. *)
Lemma fetch_pages_bad_json fuel page stars w :
  status_code (answer w page) = 200 →
  json_body (answer w page) = None →
  fetch_pages strptime network (S fuel) repo url headers page stars w =
  (Raise JSONDecodeError, after w [page_request page] []).
Proof.
  intros Hs Hj. open_body w page Hs Hj.
  unfold after. by rewrite app_nil_r.
Qed.

(** Status 200 with a falsy body ([[]], [{}], [null], ...): plain break. *)
Lemma fetch_pages_falsy fuel page stars w data :
  status_code (answer w page) = 200 →
  json_body (answer w page) = Some data →
  truthy data = false →
  fetch_pages strptime network (S fuel) repo url headers page stars w =
  (Ok stars, after w [page_request page] []).
Proof.
  intros Hs Hj Ht. open_body w page Hs Hj. rewrite Ht. simpl.
  unfold after. by rewrite app_nil_r.
Qed.

(** Status 200 with a non-empty list in which some item cannot be
    converted: the exception leaves the loop. *)
Lemma fetch_pages_bad_item fuel page stars w items e :
  status_code (answer w page) = 200 →
  json_body (answer w page) = Some (JList items) →
  collect strptime items [] = Raise e →
  fetch_pages strptime network (S fuel) repo url headers page stars w =
  (Raise e, after w [page_request page] []).
Proof.
  intros Hs Hj Hc. open_body w page Hs Hj.
  assert (truthy (JList items) = true) as Ht by (by destruct items).
  rewrite Ht. cbn [negb]. unfold bind, lift, py_iter. cbv beta iota.
  rewrite collect_app, Hc.
  unfold after. by rewrite app_nil_r.
Qed.

Lemma fetch_pages_good fuel page stars w items ds :
  good_page (answer w page) items ds →
  items ≠ [] →
  fetch_pages strptime network (S fuel) repo url headers page stars w =
  let n := Z.of_nat (length items) in
  let w1 := after w [page_request page] [fetched_line page n] in
  if n <? PER_PAGE then (Ok (stars ++ ds), w1)
  else if page + 1 >? MAX_PAGES then
    (Ok (stars ++ ds), after w1 [] [cap_line])
  else
    fetch_pages strptime network fuel repo url headers (page + 1)
      (stars ++ ds) w1.
Proof.
  intros (Hs & Hj & Hc) Hne. open_body w page Hs Hj.
  assert (truthy (JList items) = true) as Ht by (by destruct items).
  rewrite Ht. cbn [negb]. unfold bind, lift, py_iter, py_len.
  cbv beta iota. rewrite collect_app, Hc.
  unfold print at 1. cbv beta iota zeta. cbn [stdout sent fs].
  fold (fetched_line page (Z.of_nat (length items))).
  fold (after w [page_request page]
          [fetched_line page (Z.of_nat (length items))]).
  destruct (Z.of_nat (length items) <? PER_PAGE); [done|].
  destruct (page + 1 >? MAX_PAGES); [|done].
  unfold print, after. simpl. by rewrite !app_nil_r.
Qed.

(** Status 200 with a truthy body that is not a list: iterating it, or
    indexing what the iteration yields, raises [TypeError]. *)
Lemma fetch_pages_not_list fuel page stars w data :
  status_code (answer w page) = 200 →
  json_body (answer w page) = Some data →
  truthy data = true →
  (∀ items, data ≠ JList items) →
  fetch_pages strptime network (S fuel) repo url headers page stars w =
  (Raise TypeError, after w [page_request page] []).
Proof.
  intros Hs Hj Ht Hnl. open_body w page Hs Hj. rewrite Ht. cbn [negb].
  unfold bind, lift, after. rewrite app_nil_r.
  destruct data as [|b|z|s|l|d]; try done.
  - by destruct s.
  - by destruct (Hnl l).
  - by destruct d as [|[k v] d].
Qed.

Lemma collect_outcome items stars :
  collect strptime items stars ≠ OutOfFuel.
Proof.
  revert stars. induction items as [|item items IH]; intros stars; simpl.
  - done.
  - destruct (py_getitem item "starred_at") as [v| |] eqn:Hg; try done.
    + destruct (py_strptime strptime v STARRED_AT_FORMAT) as [d| |] eqn:Hp;
        try done.
      destruct v; simpl in Hp; try done. by destruct (strptime s _).
    + destruct item; simpl in Hg; try done. by destruct (dict_get _ _).
Qed.

(** Every iteration sends exactly one request and then either leaves the
    loop, or goes on to the next page; it goes on only after a full page and
    below the page cap. *)
Lemma fetch_pages_step page stars w :
  (∃ o lines,
      (∀ fuel,
         fetch_pages strptime network (S fuel) repo url headers page stars w
         = (o, after w [page_request page] lines)) ∧
      o ≠ OutOfFuel ∧
      (¬ full_page (answer w page) ∨ MAX_PAGES < page + 1)) ∨
  (full_page (answer w page) ∧ page + 1 <= MAX_PAGES ∧
   ∃ stars' lines, ∀ fuel,
      fetch_pages strptime network (S fuel) repo url headers page stars w =
      fetch_pages strptime network fuel repo url headers (page + 1) stars'
        (after w [page_request page] lines)).
Proof.
  destruct (decide (status_code (answer w page) = 200)) as [Hs|Hs].
  2:{ left. eexists _, _. split; [by intros; apply fetch_pages_error|].
      split; [done|]. left. intros (? & ? & (? & _) & _). done. }
  destruct (json_body (answer w page)) as [data|] eqn:Hj.
  2:{ left. eexists _, _. split; [by intros; apply fetch_pages_bad_json|].
      split; [done|]. left. intros (? & ? & (_ & ? & _) & _). congruence. }
  destruct (truthy data) eqn:Ht.
  2:{ left. eexists _, _. split; [by intros; eapply fetch_pages_falsy|].
      split; [done|]. left.
      intros (items & ? & (_ & Hj' & _) & Hlen).
      rewrite Hj in Hj'. injection Hj' as ->.
      destruct items; [|done]. unfold PER_PAGE in Hlen. simpl in Hlen. lia. }
  assert ((∃ items, data = JList items) ∨ ¬ ∃ items, data = JList items)
    as [[items ->]|Hnl].
  { destruct data; eauto; right; intros [? ?]; done. }
  2:{ left. eexists _, _. split.
      - intros. eapply fetch_pages_not_list; eauto.
      - split; [done|]. left.
        intros (items & ? & (_ & Hj' & _) & _). rewrite Hj in Hj'.
        injection Hj' as ->. eauto. }
  destruct (collect strptime items []) as [ds|e|] eqn:Hc.
  3:{ by destruct (collect_outcome items []). }
  2:{ left. eexists _, _. split; [by intros; eapply fetch_pages_bad_item|].
      split; [done|]. left.
      intros (items' & ? & (_ & Hj' & Hc') & _). rewrite Hj in Hj'.
      injection Hj' as <-. congruence. }
  assert (good_page (answer w page) items ds) as Hgood by done.
  assert (items ≠ []) as Hne by (by destruct items).
  pose proof (λ fuel, fetch_pages_good fuel page stars w items ds Hgood Hne)
    as Hf.
  cbv zeta in Hf.
  destruct (Z.ltb_spec (Z.of_nat (length items)) PER_PAGE) as [Hlt|Hge].
  { left. eexists _, _. split; [exact Hf|]. split; [done|]. left.
    intros (items' & ? & (_ & Hj' & _) & Hlen). rewrite Hj in Hj'.
    injection Hj' as <-. lia. }
  destruct (Z.gtb_spec (page + 1) MAX_PAGES) as [Hcap|Hnext].
  { left. rewrite after_after in Hf. eexists _, _.
    split; [exact Hf|]. split; [done|]. right. lia. }
  right. split; [by exists items, ds|]. split; [done|]. eauto.
Qed.

Lemma requests_from_S page n :
  requests_from page (S n) = page_request page :: requests_from (page + 1) n.
Proof.
  unfold requests_from. simpl. rewrite Z.add_0_r. f_equal.
  rewrite <- fmap_S_seq, <- list_fmap_compose.
  apply list_fmap_ext. intros _ i _. simpl. f_equal. lia.
Qed.

(** The loop ends within the page cap whatever the server answers: it
    sends the requests for [page], [page + 1], ... one after the other,
    each one because the page before was full, and more fuel than the pages
    left below the cap changes nothing. *)
Lemma fetch_pages_bounded fuel : ∀ page stars w,
  (1 ≤ fuel)%nat →
  (Z.to_nat (MAX_PAGES + 1 - page) ≤ fuel)%nat →
  ∃ o w' n,
    (∀ fuel', (fuel ≤ fuel')%nat →
       fetch_pages strptime network fuel' repo url headers page stars w
       = (o, w')) ∧
    o ≠ OutOfFuel ∧
    (1 ≤ n)%nat ∧
    (Z.of_nat n <= Z.max 1 (MAX_PAGES + 1 - page)) ∧
    sent w' = sent w ++ requests_from page n ∧
    fs w' = fs w ∧
    (∃ lines, stdout w' = stdout w ++ lines) ∧
    (∀ i, (i + 1 < n)%nat → full_page (nth_answer w page i)) ∧
    (¬ full_page (nth_answer w page (n - 1)) ∨
     MAX_PAGES < page + Z.of_nat n).
Proof.
  induction fuel as [|fuel IH]; intros page stars w Hpos Hfuel; [lia|].
  destruct (fetch_pages_step page stars w)
    as [(o & lines & Hrun & Ho & Hstop)
       |(Hfull & Hnext & stars' & lines & Hrun)].
  - exists o, (after w [page_request page] lines), 1%nat.
    split. { intros [|fuel'] ?; [lia|]. apply Hrun. }
    split; [done|]. split; [done|]. split; [lia|].
    split. { simpl. unfold requests_from. simpl. by rewrite Z.add_0_r. }
    split; [done|]. split; [by eexists|]. split; [intros; lia|].
    unfold nth_answer. simpl. rewrite Nat.add_0_r, Z.add_0_r.
    fold (answer w page). destruct Hstop; [by left|right; lia].
  - set (w1 := after w [page_request page] lines) in *.
    destruct (IH (page + 1) stars' w1) as
      (o & w' & n & Hall & Ho & Hn1 & Hn2 & Hsent & Hfs & [lines' Hout]
         & Hbefore & Hlast);
      [lia..|].
    exists o, w', (S n).
    split. { intros [|fuel'] ?; [lia|]. rewrite Hrun. apply Hall. lia. }
    split; [done|]. split; [lia|]. split; [lia|].
    split. { rewrite Hsent, requests_from_S. simpl. by rewrite <- app_assoc. }
    split; [by rewrite Hfs|].
    split. { exists (lines ++ lines'). rewrite Hout. simpl.
             by rewrite app_assoc. }
    assert (∀ i, nth_answer w1 (page + 1) i = nth_answer w page (S i)) as Hsh.
    { intros i. unfold nth_answer. simpl. rewrite length_app. simpl.
      f_equal; [lia|]. f_equal. lia. }
    split.
    + intros [|i] Hi.
      * unfold nth_answer. rewrite Nat.add_0_r, Z.add_0_r. exact Hfull.
      * rewrite <- Hsh. apply Hbefore. lia.
    + destruct n as [|n]; [lia|].
      replace (S (S n) - 1)%nat with (S n) by lia.
      replace (S n - 1)%nat with n in Hlast by lia.
      rewrite <- Hsh. destruct Hlast; [by left|right; lia].
Qed.

Lemma gathered_S ds k :
  gathered ds (S k) = ds 0%nat ++ gathered (ds ∘ S) k.
Proof.
  unfold gathered. simpl. f_equal.
  by rewrite <- fmap_S_seq, <- list_fmap_compose.
Qed.

Lemma gathered_snoc ds k : gathered ds (S k) = gathered ds k ++ ds k.
Proof.
  unfold gathered. rewrite seq_S, fmap_app, concat_app. simpl.
  by rewrite app_nil_r.
Qed.

Lemma fetched_lines_S page items k :
  fetched_lines page items (S k) =
  fetched_line page (Z.of_nat (length (items 0%nat)))
    :: fetched_lines (page + 1) (items ∘ S) k.
Proof.
  unfold fetched_lines. simpl. rewrite Z.add_0_r. f_equal.
  rewrite <- fmap_S_seq, <- list_fmap_compose.
  apply list_fmap_ext. intros _ i _. simpl. f_equal. lia.
Qed.

Lemma nth_answer_shift w page lines i :
  nth_answer (after w [page_request page] lines) (page + 1) i =
  nth_answer w page (S i).
Proof.
  unfold nth_answer. simpl. rewrite length_app. simpl.
  f_equal; [lia|]. f_equal. lia.
Qed.

(** [k] full pages in a row below the cap are [k] iterations that go on. *)
Lemma fetch_pages_full_run k : ∀ page stars w items ds fuel,
  (∀ i, (i < k)%nat →
     good_page (nth_answer w page i) (items i) (ds i) ∧
     PER_PAGE <= Z.of_nat (length (items i))) →
  page + Z.of_nat k <= MAX_PAGES →
  fetch_pages strptime network (k + fuel) repo url headers page stars w =
  fetch_pages strptime network fuel repo url headers (page + Z.of_nat k)
    (stars ++ gathered ds k)
    (after w (requests_from page k) (fetched_lines page items k)).
Proof.
  induction k as [|k IH]; intros page stars w items ds fuel Hpages Hcap.
  - simpl. unfold gathered, requests_from, fetched_lines. simpl.
    by rewrite Z.add_0_r, app_nil_r, after_nil.
  - destruct (Hpages 0%nat ltac:(lia)) as [Hgood Hlen].
    unfold nth_answer in Hgood. rewrite Nat.add_0_r, Z.add_0_r in Hgood.
    fold (answer w page) in Hgood.
    assert (items 0%nat ≠ []) as Hne.
    { intros Heq. rewrite Heq in Hlen. unfold PER_PAGE in Hlen.
      simpl in Hlen. lia. }
    change (S k + fuel)%nat with (S (k + fuel)).
    rewrite (fetch_pages_good _ page stars w _ _ Hgood Hne). cbv zeta.
    destruct (Z.ltb_spec (Z.of_nat (length (items 0%nat))) PER_PAGE); [lia|].
    destruct (Z.gtb_spec (page + 1) MAX_PAGES); [lia|].
    rewrite (IH (page + 1) _ _ (items ∘ S) (ds ∘ S)).
    + rewrite after_after, requests_from_S, fetched_lines_S, gathered_S.
      replace (page + Z.of_nat (S k)) with (page + 1 + Z.of_nat k) by lia.
      by rewrite <- app_assoc.
    + intros i Hi. rewrite nth_answer_shift. apply Hpages. lia.
    + lia.
Qed.

Lemma length_requests_from page n : length (requests_from page n) = n.
Proof. unfold requests_from. by rewrite length_fmap, length_seq. Qed.

Lemma answer_after_run w page k lines :
  answer (after w (requests_from page k) lines) (page + Z.of_nat k) =
  nth_answer w page k.
Proof.
  unfold answer, nth_answer. simpl.
  by rewrite length_app, length_requests_from.
Qed.

Lemma good_page_full r items ds :
  good_page r items ds →
  full_page r ↔ PER_PAGE <= Z.of_nat (length items).
Proof.
  intros Hgood. split.
  - intros (items' & ds' & (_ & Hj' & _) & Hlen).
    destruct Hgood as (_ & Hj & _). rewrite Hj in Hj'.
    by injection Hj' as <-.
  - intros Hlen. by exists items, ds.
Qed.


Lemma good_page_length r items ds :
  good_page r items ds → length ds = length items.
Proof. intros (_ & _ & Hc). by apply collect_length in Hc. Qed.

(** When the server answers every request with a successful page, the
    loop returns the timestamps of the pages up to and including the first
    one with fewer than 100 items, or of all 100 pages. *)
Lemma fetch_pages_all_good w items ds :
  (∀ i, (i < Z.to_nat MAX_PAGES)%nat →
     good_page (nth_answer w 1 i) (items i) (ds i)) →
  ∃ n w',
    (1 ≤ n)%nat ∧ (n ≤ Z.to_nat MAX_PAGES)%nat ∧
    fetch_pages strptime network (Z.to_nat MAX_PAGES) repo url headers 1 []
      w = (Ok (gathered ds n), w') ∧
    sent w' = sent w ++ requests_from 1 n ∧
    fs w' = fs w ∧
    (∀ i, (i + 1 < n)%nat → PER_PAGE <= Z.of_nat (length (items i))) ∧
    (n = Z.to_nat MAX_PAGES ∨
     Z.of_nat (length (items (n - 1)%nat)) < PER_PAGE).
Proof.
  intros Hgood.
  destruct (fetch_pages_bounded (Z.to_nat MAX_PAGES) 1 [] w)
    as (o & w' & n & Hall & Ho & Hn1 & Hn2 & Hsent & Hfs & _ & Hbefore
          & Hlast);
    [unfold MAX_PAGES; lia..|].
  assert (n ≤ Z.to_nat MAX_PAGES)%nat as Hn by (unfold MAX_PAGES in *; lia).
  exists n, w'. split; [done|]. split; [done|].
  assert (∀ i, (i + 1 < n)%nat → PER_PAGE <= Z.of_nat (length (items i)))
    as Hfull.
  { intros i Hi. apply (good_page_full (nth_answer w 1 i) _ (ds i)).
    - apply Hgood. lia.
    - by apply Hbefore. }
  assert (n = Z.to_nat MAX_PAGES ∨
          Z.of_nat (length (items (n - 1)%nat)) < PER_PAGE) as Hstop.
  { destruct Hlast as [Hnf|Hcap]; [right|left; unfold MAX_PAGES in *; lia].
    destruct (Z.lt_ge_cases (Z.of_nat (length (items (n - 1)%nat))) PER_PAGE)
      as [|Hge]; [done|].
    destruct Hnf.
    apply (good_page_full _ (items (n - 1)%nat) (ds (n - 1)%nat)); [|done].
    apply Hgood. lia. }
  split; [|done].
  cut (∃ w'', fetch_pages strptime network (Z.to_nat MAX_PAGES) repo url
                headers 1 [] w = (Ok (gathered ds n), w'')).
  { intros [w'' Hw'']. rewrite Hw''. rewrite Hall in Hw'' by done.
    by injection Hw'' as -> ->. }
  clear Hall. destruct n as [|k]; [lia|].
  replace (S k - 1)%nat with k in * by lia.
  assert (∃ fuel, Z.to_nat MAX_PAGES = (k + S fuel)%nat) as [fuel ->].
  { exists (Z.to_nat MAX_PAGES - S k)%nat. lia. }
  rewrite (fetch_pages_full_run k 1 [] w items ds).
  2:{ intros i Hi. split; [apply Hgood; lia|apply Hfull; lia]. }
  2:{ unfold MAX_PAGES in *. lia. }
  simpl app.
  set (wk := after w (requests_from 1 k) (fetched_lines 1 items k)).
  assert (good_page (answer wk (1 + Z.of_nat k)) (items k) (ds k)) as Hk.
  { unfold wk. rewrite answer_after_run. apply Hgood. lia. }
  rewrite gathered_snoc.
  destruct (items k) as [|item rest] eqn:Hitems.
  - destruct Hk as (Hs & Hj & Hc). simpl in Hc. injection Hc as <-.
    rewrite app_nil_r. rewrite (fetch_pages_falsy _ _ _ _ (JList [])); eauto.
  - rewrite (fetch_pages_good _ _ _ _ _ _ Hk) by done. cbv zeta.
    destruct (Z.ltb_spec (Z.of_nat (length (item :: rest))) PER_PAGE);
      [eauto|].
    destruct (Z.gtb_spec (1 + Z.of_nat k + 1) MAX_PAGES); [eauto|].
    destruct Hstop; unfold MAX_PAGES in *; lia.
Qed.

End Fetcher.

(** ** The fetcher as a whole *)

Lemma get_star_history_unfold tok strptime network repo owner name w :
  unpack2 (split "/" repo) = Ok (owner, name) →
  get_star_history tok strptime network repo w =
  match collection tok strptime network repo owner name w with
  | (Ok stars, w1) =>
      (Ok (cumulative (merge_sort datetime_le stars)),
       printed w1 [total_line (merge_sort datetime_le stars)])
  | (Raise e, w1) => (Raise e, w1)
  | (OutOfFuel, w1) => (OutOfFuel, w1)
  end.
Proof.
  intros Hsplit. unfold get_star_history, collection.
  unfold bind at 1, lift. rewrite Hsplit.
  unfold bind at 1. unfold print at 1. cbv beta iota.
  fold (printed w ["Fetching star data for " +:+ repo +:+ "..."]).
  fold (started repo w). unfold bind at 1.
  by destruct (fetch_pages _ _ _ _ _ _ _ _ _) as [[stars| |] w1].
Qed.

Lemma get_star_history_bad_name tok strptime network repo w e :
  unpack2 (split "/" repo) = Raise e →
  get_star_history tok strptime network repo w = (Raise e, w).
Proof.
  intros Hsplit. unfold get_star_history. unfold bind, lift.
  by rewrite Hsplit.
Qed.

Lemma REPOS_names :
  Forall (λ repo, ∃ owner name, unpack2 (split "/" repo) = Ok (owner, name))
    REPOS.
Proof. repeat constructor; by eexists _, _. Qed.

(** C1: when the collection phase of [get_star_history] has gathered the
    timestamps [stars], in whatever order, the function returns a series of
    exactly as many pairs; the counts are 1, 2, ..., N, the timestamps are the
    gathered ones in non-decreasing order; timestamps arriving as
    [t2; t1; t3] with [t1 < t2 < t3] give [(t1, 1); (t2, 2); (t3, 3)]. *)
Theorem get_star_history_cumulative tok strptime network repo owner name w
    stars w1 :
  unpack2 (split "/" repo) = Ok (owner, name) →
  collection tok strptime network repo owner name w = (Ok stars, w1) →
  ∃ result w2,
    get_star_history tok strptime network repo w = (Ok result, w2) ∧
    length result = length stars ∧
    result.*2 = (λ i, Z.of_nat i) <$> seq 1 (length stars) ∧
    Sorted datetime_le result.*1 ∧
    result.*1 ≡ₚ stars ∧
    ∀ t1 t2 t3,
      datetime_lt t1 t2 → datetime_lt t2 t3 → stars = [t2; t1; t3] →
      result = [(t1, 1); (t2, 2); (t3, 3)].
Proof.
  intros Hname Hcoll. rewrite (get_star_history_unfold _ _ _ _ _ _ _ Hname).
  rewrite Hcoll. eexists _, _. split; [done|].
  assert (length (merge_sort datetime_le stars) = length stars) as Hlen.
  { apply Permutation_length, merge_sort_Permutation. }
  split; [by rewrite cumulative_length|].
  split; [by rewrite cumulative_counts, Hlen|].
  rewrite cumulative_dates.
  split; [apply Sorted_merge_sort, _|].
  split; [apply merge_sort_Permutation|].
  intros t1 t2 t3 H12 H23 ->. by rewrite sort_three.
Qed.

Lemma get_star_history_cumulative_witness :
  ∃ result w2,
    get_star_history None Sample.strptime Sample.net_one "bittner/pyclean"
      Sample.empty_world = (Ok result, w2) ∧
    length result = 3%nat ∧
    result.*2 = [1; 2; 3] ∧
    Sorted datetime_le result.*1 ∧
    result.*1 ≡ₚ [Sample.T2; Sample.T1; Sample.T3] ∧
    ∀ t1 t2 t3,
      datetime_lt t1 t2 → datetime_lt t2 t3 →
      [Sample.T2; Sample.T1; Sample.T3] = [t2; t1; t3] →
      result = [(t1, 1); (t2, 2); (t3, 3)].
Proof.
  eapply (get_star_history_cumulative None Sample.strptime Sample.net_one
            "bittner/pyclean" "bittner" "pyclean" Sample.empty_world
            [Sample.T2; Sample.T1; Sample.T3]).
  - reflexivity.
  - vm_compute. reflexivity.
Defined.

Lemma requests_from_pages url headers n :
  requests_from url headers 1 n =
  (λ p, mk_request url headers [("page", Z.of_nat p); ("per_page", 100)])
    <$> seq 1 n.
Proof.
  unfold requests_from. rewrite <- fmap_S_seq, <- list_fmap_compose.
  apply list_fmap_ext. intros _ i _. simpl.
  unfold page_request, page_params, PER_PAGE. do 3 f_equal. lia.
Qed.





(** ** What happens after [k] full pages *)

Section AfterFullPages.

Variable tok : option string.
Variable strptime : string → string → option datetime.
Variable network : nat → request → response.
Variables (repo owner name : string) (w : world).
Variable k : nat.
Variable items : nat → list json.
Variable ds : nat → list datetime.

Let url := api_url owner name.
Let headers := api_headers tok.

Local Abbreviation world_after_pages :=
  (world_after_pages tok repo owner name w k items).

Hypothesis Hcap : (k < 100)%nat.
Hypothesis Hpages : ∀ i, (i < k)%nat →
  good_page strptime (nth_answer network url headers w 1 i)
    (items i) (ds i) ∧
  (100 ≤ length (items i))%nat.

Lemma collection_after_pages :
  collection tok strptime network repo owner name w =
  fetch_pages strptime network (S (99 - k)) repo url headers
    (1 + Z.of_nat k) (gathered ds k) world_after_pages.
Proof.
  unfold collection. fold url headers.
  replace (Z.to_nat MAX_PAGES) with (k + S (99 - k))%nat
    by (unfold MAX_PAGES; lia).
  rewrite (fetch_pages_full_run strptime network repo url headers k 1 []
             (started repo w) items ds); [done| |unfold MAX_PAGES; lia].
  intros i Hi. destruct (Hpages i Hi) as [Hgood Hlen].
  split; [exact Hgood|unfold PER_PAGE; lia].
Qed.

Lemma answer_after_pages :
  answer network url headers world_after_pages (1 + Z.of_nat k) =
  nth_answer network url headers w 1 k.
Proof. unfold world_after_pages. by rewrite answer_after_run. Qed.

(** A non-200 answer to the next request ends the collection with the
    [k] pages gathered so far. *)
Lemma collection_error :
  status_code (nth_answer network url headers w 1 k) ≠ 200 →
  collection tok strptime network repo owner name w =
  (Ok (gathered ds k),
   after world_after_pages [page_request url headers (1 + Z.of_nat k)]
     (error_lines repo (nth_answer network url headers w 1 k))).
Proof.
  intros Hs. rewrite collection_after_pages, <- answer_after_pages.
  apply fetch_pages_error. by rewrite answer_after_pages.
Qed.

End AfterFullPages.

Lemma total_line_sorted stars :
  total_line (merge_sort datetime_le stars) = total_line stars.
Proof.
  unfold total_line.
  by rewrite (Permutation_length (merge_sort_Permutation _ _)).
Qed.



(** ** The renderer *)

Lemma COLORS_lookup idx :
  ∃ color, COLORS !! (idx `mod` length COLORS)%nat = Some color.
Proof.
  apply lookup_lt_is_Some. apply Nat.mod_upper_bound. done.
Qed.

Lemma line_for_empty idx repo : line_for idx (repo, []) = None.
Proof. done. Qed.

Lemma line_for_data idx repo data :
  data ≠ [] →
  ∃ color,
    COLORS !! (idx `mod` length COLORS)%nat = Some color ∧
    line_for idx (repo, data) =
    Some (mk_plot data.*1 data.*2 repo color 2 "o").
Proof.
  intros Hne. destruct (COLORS_lookup idx) as [color Hc].
  exists color. split; [done|]. unfold line_for, plot_all.
  destruct data; [done|]. by rewrite Hc.
Qed.

Lemma plot_all_lines items : ∀ idx lines,
  plot_all idx items lines =
  Ok (lines ++ omap id (imap (λ i, line_for (idx + i)) items)).
Proof.
  induction items as [|[repo data] items IH]; intros idx lines.
  - simpl. by rewrite app_nil_r.
  - rewrite imap_cons. rewrite Nat.add_0_r.
    rewrite (imap_ext _ (λ i, line_for (S idx + i)))
      by (intros; simpl; f_equal; lia).
    destruct data as [|d data].
    + cbn [plot_all]. rewrite IH. by rewrite line_for_empty.
    + destruct (line_for_data idx repo (d :: data)) as (color & Hc & Hl);
        [done|].
      cbn [plot_all]. rewrite Hc, IH, Hl. simpl. by rewrite <- app_assoc.
Qed.

Lemma plot_all_chart_lines repo_data :
  plot_all 0 repo_data [] = Ok (chart_lines repo_data).
Proof. by rewrite plot_all_lines. Qed.

Lemma plotted_in_chart repo_data j line :
  plotted repo_data j = Some line → line ∈ chart_lines repo_data.
Proof.
  unfold plotted, chart_lines. intros Hp.
  destruct (repo_data !! j) as [entry|] eqn:Hj; [|done]. simpl in Hp.
  apply list_elem_of_omap. exists (Some line). split; [|done].
  apply list_elem_of_lookup. exists j.
  by rewrite list_lookup_imap, Hj, <- Hp.
Qed.

Lemma emptied_lookup_ne i j (repo_data : dict series) :
  i ≠ j → emptied i repo_data !! j = repo_data !! j.
Proof. intros. unfold emptied. by rewrite list_lookup_alter_ne. Qed.

Lemma plotted_emptied_ne i j repo_data :
  i ≠ j → plotted (emptied i repo_data) j = plotted repo_data j.
Proof. intros. unfold plotted. by rewrite emptied_lookup_ne. Qed.

Lemma lines_data_from items : ∀ idx,
  line_data <$> omap id (imap (λ i, line_for (idx + i)) items) =
  (λ entry : string * series, (entry.1, entry.2.*1, entry.2.*2))
    <$> filter (λ entry, has_data entry = true) items.
Proof.
  induction items as [|[repo data] items IH]; intros idx; [done|].
  rewrite imap_cons.
  rewrite (imap_ext _ (λ i, line_for (S idx + i)))
    by (intros; simpl; f_equal; lia).
  destruct data as [|d data].
  - simpl. rewrite filter_cons_False by done. apply (IH (S idx)).
  - destruct (line_for_data (idx + 0) repo (d :: data)) as (color & _ & Hl);
      [done|].
    cbn [omap list_omap]. rewrite Hl. rewrite filter_cons_True by done.
    simpl. f_equal. apply (IH (S idx)).
Qed.

Lemma chart_lines_data repo_data :
  line_data <$> chart_lines repo_data =
  (λ entry : string * series, (entry.1, entry.2.*1, entry.2.*2))
    <$> filter (λ entry, has_data entry = true) repo_data.
Proof. apply (lines_data_from repo_data 0). Qed.

Lemma OUTPUT_paths_ne : OUTPUT_DIR ≠ OUTPUT_FILE.
Proof. done. Qed.

Lemma generate_chart_unobstructed repo_data w :
  unobstructed (fs w) →
  generate_chart repo_data w =
  (Ok (), mk_world (stdout w ++ [saved_line]) (sent w)
            (written repo_data (fs w))).
Proof.
  intros [Hdir Hfile]. unfold generate_chart. unfold bind at 1, lift.
  rewrite plot_all_chart_lines. fold (chart_of repo_data).
  unfold bind at 1, mkdir_parents_exist_ok.
  assert (∃ t, mkdir_from [] OUTPUT_DIR (fs w) = Ok t ∧
               t = <[OUTPUT_DIR := Dir]> (fs w)) as (t & -> & Ht).
  { unfold OUTPUT_DIR in *. cbn [mkdir_from app].
    destruct Hdir as [Hd|Hd]; rewrite Hd; eexists; (split; [done|]).
    - done.
    - by rewrite insert_id. }
  unfold bind, savefig. cbn [fs stdout sent].
  assert (removelast OUTPUT_FILE = OUTPUT_DIR) as -> by done.
  destruct (decide (OUTPUT_DIR = [])) as [|_]; [done|].
  assert (t !! OUTPUT_DIR = Some Dir) as ->
    by (by rewrite Ht, lookup_insert_eq).
  assert (t !! OUTPUT_FILE = fs w !! OUTPUT_FILE) as Hsame.
  { rewrite Ht. apply lookup_insert_ne, OUTPUT_paths_ne. }
  unfold written. rewrite <- Ht.
  destruct (t !! OUTPUT_FILE) as [[|c]|] eqn:Ho; [congruence|done|done].
Qed.

(** A regular file where the directory should be stops the renderer. *)
Lemma generate_chart_obstructed repo_data w c :
  fs w !! OUTPUT_DIR = Some (File c) →
  generate_chart repo_data w = (Raise (FileExistsError OUTPUT_DIR), w).
Proof.
  intros Hfile. unfold generate_chart. unfold bind at 1, lift.
  rewrite plot_all_chart_lines.
  unfold bind at 1, mkdir_parents_exist_ok.
  unfold OUTPUT_DIR in *. cbn [mkdir_from app]. by rewrite Hfile.
Qed.

Lemma unobstructed_dec t : unobstructed t ∨ ¬ unobstructed t.
Proof.
  unfold unobstructed.
  destruct (t !! OUTPUT_DIR) as [[|c]|], (t !! OUTPUT_FILE) as [[|c']|];
    first [ left; split; [by auto|done]
          | right; intros [[?|?] ?]; done ].
Qed.

(** The renderer either succeeds, which it does exactly when the output
    paths are free, or raises without printing and without touching the
    chart file. *)
Lemma generate_chart_failure repo_data w :
  ¬ unobstructed (fs w) →
  ∃ e w',
    generate_chart repo_data w = (Raise e, w') ∧
    stdout w' = stdout w ∧ sent w' = sent w ∧
    fs w' !! OUTPUT_FILE = fs w !! OUTPUT_FILE ∧
    ((e = FileExistsError OUTPUT_DIR ∧
      ∃ c, fs w !! OUTPUT_DIR = Some (File c)) ∨
     (e = IsADirectoryError OUTPUT_FILE ∧
      fs w !! OUTPUT_FILE = Some Dir)).
Proof.
  intros Hblocked.
  destruct (fs w !! OUTPUT_DIR) as [[|c]|] eqn:Hdir.
  3:{ (* the directory is missing, so a directory is at the file path *)
      assert (fs w !! OUTPUT_FILE = Some Dir) as Hfile.
      { destruct (fs w !! OUTPUT_FILE) as [[|c]|] eqn:Hf; [done|..];
          destruct Hblocked; split; auto; by rewrite Hf. }
      unfold generate_chart. unfold bind at 1, lift.
      rewrite plot_all_chart_lines.
      unfold bind at 1, mkdir_parents_exist_ok.
      unfold OUTPUT_DIR in Hdir |- *. cbn [mkdir_from app]. rewrite Hdir.
      unfold bind, savefig. cbn [fs stdout sent].
      assert (removelast OUTPUT_FILE = ["star-history"]) as -> by done.
      destruct (decide (["star-history"] = [])) as [|_]; [done|].
      rewrite lookup_insert_eq.
      rewrite lookup_insert_ne by done. rewrite Hfile.
      eexists _, _. split; [done|]. cbn [fs stdout sent].
      split; [done|]. split; [done|].
      split; [by rewrite lookup_insert_ne|]. right. by split. }
  2:{ rewrite (generate_chart_obstructed repo_data w c Hdir).
      eexists _, _. split; [done|]. split; [done|]. split; [done|].
      split; [done|]. left. split; [done|]. by exists c. }
  assert (fs w !! OUTPUT_FILE = Some Dir) as Hfile.
  { destruct (fs w !! OUTPUT_FILE) as [[|c]|] eqn:Hf; [done|..];
      destruct Hblocked; split; auto; by rewrite Hf. }
  unfold generate_chart. unfold bind at 1, lift.
  rewrite plot_all_chart_lines.
  unfold bind at 1, mkdir_parents_exist_ok.
  unfold OUTPUT_DIR in Hdir |- *. cbn [mkdir_from app]. rewrite Hdir.
  unfold bind, savefig. cbn [fs stdout sent].
  assert (removelast OUTPUT_FILE = ["star-history"]) as -> by done.
  destruct (decide (["star-history"] = [])) as [|_]; [done|].
  rewrite Hdir, Hfile.
  eexists _, _. split; [done|]. cbn [fs stdout sent].
  split; [done|]. split; [done|]. split; [done|]. right. by split.
Qed.



(** C10, as the claim has it, fails: making the series of one repository
    empty never changes the color of a repository listed after it.  For
    instance the second of two repositories is drawn in the second palette
    color whether or not the first one has data. *)
Lemma emptied_series_changes_no_color :
  (¬ ∃ (repo_data : dict series) (i j : nat) (line line' : plot_call),
       (i < j)%nat ∧
       plotted repo_data j = Some line ∧
       plotted (emptied i repo_data) j = Some line' ∧
       plot_color line ≠ plot_color line') ∧
  plot_color <$> plotted Sample.two_series 1 = Some "#ff7f0e" ∧
  plot_color <$> plotted (emptied 0 Sample.two_series) 1 = Some "#ff7f0e" ∧
  plot_all 0 (emptied 0 Sample.two_series) [] =
    Ok [mk_plot [Sample.T3] [1] "behave/behave" "#ff7f0e" 2 "o"].
Proof.
  split; [|by vm_compute].
  intros (repo_data & i & j & line & line' & Hij & Hl & Hl' & Hne).
  rewrite plotted_emptied_ne in Hl' by lia. congruence.
Qed.

(** C10, amended: a repository with data at position [j] of the mapping,
    empty entries before it counted, is drawn in color [COLORS[j mod 10]],
    and making the series of any other repository empty leaves its line, color
    included, as it was. *)
Theorem color_by_position (repo_data : dict series) j repo data :
  repo_data !! j = Some (repo, data) →
  data ≠ [] →
  ∃ line,
    plot_all 0 repo_data [] = Ok (chart_lines repo_data) ∧
    line ∈ chart_lines repo_data ∧
    plotted repo_data j = Some line ∧
    plot_label line = repo ∧
    COLORS !! (j `mod` 10)%nat = Some (plot_color line) ∧
    ∀ i, i ≠ j → plotted (emptied i repo_data) j = Some line.
Proof.
  intros Hj Hne.
  destruct (line_for_data j repo data Hne) as (color & Hc & Hl).
  assert (plotted repo_data j =
          Some (mk_plot data.*1 data.*2 repo color 2 "o")) as Hp.
  { unfold plotted. by rewrite Hj. }
  eexists. split; [apply plot_all_chart_lines|].
  split; [by eapply plotted_in_chart|]. split; [done|].
  split; [done|]. split; [exact Hc|].
  intros i Hi. by rewrite plotted_emptied_ne.
Qed.

Lemma color_by_position_witness :
  ∃ line,
    plot_all 0 (emptied 0 Sample.two_series) [] =
      Ok (chart_lines (emptied 0 Sample.two_series)) ∧
    line ∈ chart_lines (emptied 0 Sample.two_series) ∧
    plotted (emptied 0 Sample.two_series) 1 = Some line ∧
    plot_label line = "behave/behave" ∧
    COLORS !! (1 `mod` 10)%nat = Some (plot_color line) ∧
    ∀ i, i ≠ 1%nat →
      plotted (emptied i (emptied 0 Sample.two_series)) 1 = Some line.
Proof.
  apply (color_by_position (emptied 0 Sample.two_series) 1 "behave/behave"
           [(Sample.T3, 1)]).
  - reflexivity.
  - discriminate.
Defined.

(** A refused first request leaves [get_star_history] with nothing. *)
Lemma first_request_refused tok strptime network repo owner name w :
  unpack2 (split "/" repo) = Ok (owner, name) →
  status_code
    (nth_answer network (api_url owner name) (api_headers tok) w 1 0) ≠ 200 →
  ∃ w', get_star_history tok strptime network repo w = (Ok [], w').
Proof.
  intros Hname Hs. rewrite (get_star_history_unfold _ _ _ _ _ _ _ Hname).
  rewrite (collection_error tok strptime network repo owner name w 0
             (λ _, []) (λ _, [])); [by eexists|lia|intros; lia|done].
Qed.

(** C5: when the first page request for a repository gets a non-200
    status, [get_star_history] returns the empty series.  The renderer's loop
    raises nothing and draws exactly the entries that have data, each with its
    own label, dates and counts, in mapping order: an entry with an empty
    series gets no line, and the others are drawn as if it were not there;
    with the output paths free the whole of [generate_chart] succeeds. *)
Theorem failed_repository_skipped :
  (∀ tok strptime network repo owner name w,
     unpack2 (split "/" repo) = Ok (owner, name) →
     status_code
       (nth_answer network (api_url owner name) (api_headers tok) w 1 0)
       ≠ 200 →
     ∃ w', get_star_history tok strptime network repo w = (Ok [], w')) ∧
  (∀ repo_data : dict series,
     plot_all 0 repo_data [] = Ok (chart_lines repo_data) ∧
     (∀ j repo, repo_data !! j = Some (repo, []) →
        plotted repo_data j = None) ∧
     line_data <$> chart_lines repo_data =
       (λ entry : string * series, (entry.1, entry.2.*1, entry.2.*2))
         <$> filter (λ entry, has_data entry = true) repo_data ∧
     (∀ w, unobstructed (fs w) →
        ∃ w', generate_chart repo_data w = (Ok (), w') ∧
              fs w' !! OUTPUT_FILE =
                Some (File (Image "svg" (chart_of repo_data))))).
Proof.
  split; [apply first_request_refused|].
  intros repo_data. split; [apply plot_all_chart_lines|].
  split. { intros j repo Hj. unfold plotted. by rewrite Hj. }
  split; [apply chart_lines_data|].
  intros w Hfree. rewrite (generate_chart_unobstructed _ _ Hfree).
  eexists. split; [done|]. cbn [fs]. unfold written.
  by rewrite lookup_insert_eq.
Qed.

Lemma failed_repository_skipped_witness :
  (∃ w', get_star_history None Sample.strptime Sample.net_down
           "behave/behave" Sample.empty_world = (Ok [], w')) ∧
  plotted Sample.one_series 1 = None ∧
  ∃ w', generate_chart Sample.one_series Sample.empty_world = (Ok (), w') ∧
        fs w' !! OUTPUT_FILE =
          Some (File (Image "svg" (chart_of Sample.one_series))).
Proof.
  split; [|split].
  - apply (proj1 failed_repository_skipped None Sample.strptime
             Sample.net_down "behave/behave" "behave" "behave"
             Sample.empty_world).
    + reflexivity.
    + vm_compute. discriminate.
  - apply (proj1 (proj2 (proj2 failed_repository_skipped Sample.one_series))
             1%nat "behave/behave").
    reflexivity.
  - apply (proj2 (proj2 (proj2 (proj2 failed_repository_skipped
                                  Sample.one_series)))
             Sample.empty_world).
    split; [left; reflexivity|]. vm_compute. discriminate.
Defined.

(** ** The driver *)

Section Driver.

Variable tok : option string.
Variable strptime : string → string → option datetime.
Variable network : nat → request → response.

Local Abbreviation run_extends := (run_extends tok).
Local Abbreviation fetched := (fetched tok strptime network).

Lemma run_extends_refl w : run_extends w w.
Proof.
  split; [exists []|exists []]; rewrite app_nil_r; [done|].
  split; [done|constructor].
Qed.

Lemma run_extends_trans w1 w2 w3 :
  run_extends w1 w2 → run_extends w2 w3 → run_extends w1 w3.
Proof.
  intros [[l1 Hl1] (r1 & Hr1 & Hf1)] [[l2 Hl2] (r2 & Hr2 & Hf2)]. split.
  - exists (l1 ++ l2). by rewrite Hl2, Hl1, app_assoc.
  - exists (r1 ++ r2). split; [by rewrite Hr2, Hr1, app_assoc|].
    by apply Forall_app.
Qed.

Lemma printed_extends w lines : run_extends w (printed w lines).
Proof.
  split; [by exists lines|]. exists []. simpl. rewrite app_nil_r.
  split; [done|constructor].
Qed.

Lemma unpack2_outcome xs : unpack2 xs ≠ OutOfFuel.
Proof. by destruct xs as [|a [|b [|c xs]]]. Qed.

(** [get_star_history] always comes back, leaves the disk alone, prints
    and sends requests with its headers, at least one when the repository
    name has the form owner/name. *)
Lemma get_star_history_run repo w :
  ∃ o w',
    get_star_history tok strptime network repo w = (o, w') ∧
    o ≠ OutOfFuel ∧
    run_extends w w' ∧
    fs w' = fs w ∧
    (∀ owner name, unpack2 (split "/" repo) = Ok (owner, name) →
       sent w' ≠ sent w).
Proof.
  destruct (unpack2 (split "/" repo)) as [[owner name]|e|] eqn:Hname.
  3:{ by destruct (unpack2_outcome (split "/" repo)). }
  2:{ rewrite (get_star_history_bad_name _ _ _ _ _ _ Hname).
      eexists _, _. split; [done|]. split; [done|].
      split; [apply run_extends_refl|]. by split. }
  rewrite (get_star_history_unfold _ _ _ _ _ _ _ Hname). unfold collection.
  destruct (fetch_pages_bounded strptime network repo (api_url owner name)
              (api_headers tok) (Z.to_nat MAX_PAGES) 1 [] (started repo w))
    as (o & w' & n & Hall & Ho & Hn1 & _ & Hsent & Hfs & [lines Hout] & _);
    [unfold MAX_PAGES; lia..|].
  rewrite (Hall _ (le_n _)).
  assert (run_extends w w') as Hext.
  { apply (run_extends_trans _ (started repo w)); [apply printed_extends|].
    split; [by exists lines|]. eexists. split; [exact Hsent|].
    unfold requests_from. apply Forall_fmap, Forall_forall. done. }
  assert (sent w' ≠ sent w) as Hnew.
  { rewrite Hsent. simpl. destruct n as [|n]; [lia|].
    rewrite requests_from_S. intros Heq.
    apply (f_equal length) in Heq. rewrite length_app in Heq.
    simpl in Heq. lia. }
  destruct o as [stars|e|]; [| |done].
  - eexists _, _. split; [done|]. split; [done|]. split; [|by split].
    eapply run_extends_trans; [exact Hext|apply printed_extends].
  - eexists _, _. split; [done|]. split; [done|]. by split.
Qed.

Lemma fetched_keys w repos repo_data w' :
  fetched w repos repo_data w' → dict_keys repo_data = repos.
Proof. induction 1; [done|]. unfold dict_keys in *. simpl. by f_equal. Qed.

Lemma fetched_det w repos rd1 w1 :
  fetched w repos rd1 w1 →
  ∀ rd2 w2, fetched w repos rd2 w2 → rd1 = rd2 ∧ w1 = w2.
Proof.
  induction 1 as [|w repo data w1 repos rd w2 Hget _ IH]; intros rd2 w3 H2.
  - by inversion H2.
  - inversion H2 as [|? ? data' w1' ? rd' ? Hget' Hrest']; subst.
    rewrite Hget in Hget'. injection Hget' as <- <-.
    destruct (IH _ _ Hrest') as [-> ->]. done.
Qed.

Lemma fetched_app_inv pre : ∀ w rest repo_data w',
  fetched w (pre ++ rest) repo_data w' →
  ∃ rd1 rd2 w1,
    fetched w pre rd1 w1 ∧ fetched w1 rest rd2 w' ∧ repo_data = rd1 ++ rd2.
Proof.
  induction pre as [|repo pre IH]; intros w rest repo_data w' H.
  - exists [], repo_data, w. split; [constructor|]. by split.
  - inversion H as [|? ? data w1 ? rd ? Hget Hrest]; subst.
    destruct (IH _ _ _ _ Hrest) as (rd1 & rd2 & w2 & H1 & H2 & ->).
    exists ((repo, data) :: rd1), rd2, w2.
    split; [by econstructor|]. by split.
Qed.

Lemma dict_set_fresh {V} (k : string) (v : V) (d : dict V) :
  k ∉ dict_keys d → dict_set k v d = d ++ [(k, v)].
Proof.
  unfold dict_keys. induction d as [|[k' v'] d IH]; intros Hk; [done|].
  simpl in *. apply not_elem_of_cons in Hk as [Hne Hk].
  destruct (decide (k' = k)); [done|]. by rewrite IH.
Qed.

Lemma fetch_all_fetched repos : ∀ acc w repo_data w',
  NoDup (dict_keys acc ++ repos) →
  fetch_all tok strptime network repos acc w = (Ok repo_data, w') →
  ∃ new, fetched w repos new w' ∧ repo_data = acc ++ new.
Proof.
  induction repos as [|repo repos IH]; intros acc w repo_data w' Hnd Hrun.
  - simpl in Hrun. injection Hrun as <- <-. exists [].
    split; [constructor|by rewrite app_nil_r].
  - simpl in Hrun. unfold bind in Hrun.
    destruct (get_star_history tok strptime network repo w)
      as [[data|e|] w1] eqn:Hget; [|done..].
    rewrite dict_set_fresh in Hrun.
    2:{ apply NoDup_app in Hnd as (_ & Hnd & _). intros Hin.
        apply (Hnd _ Hin). by left. }
    apply IH in Hrun as (new & Hnew & ->).
    + exists ((repo, data) :: new). split; [by econstructor|].
      by rewrite <- app_assoc.
    + unfold dict_keys in *. rewrite fmap_app, <- app_assoc. done.
Qed.

Lemma fetched_fetch_all w repos repo_data w' :
  fetched w repos repo_data w' →
  ∀ acc, NoDup (dict_keys acc ++ repos) →
  fetch_all tok strptime network repos acc w = (Ok (acc ++ repo_data), w').
Proof.
  induction 1 as [|w repo data w1 repos rd w2 Hget _ IH]; intros acc Hnd.
  - simpl. by rewrite app_nil_r.
  - simpl. unfold bind. rewrite Hget. rewrite dict_set_fresh.
    2:{ apply NoDup_app in Hnd as (_ & Hnd & _). intros Hin.
        apply (Hnd _ Hin). by left. }
    rewrite IH; [by rewrite <- app_assoc|].
    unfold dict_keys in *. rewrite fmap_app, <- app_assoc. done.
Qed.

(** An exception in one call ends the loop, whatever was fetched before. *)
Lemma fetch_all_raise w pre repo_data w1 :
  fetched w pre repo_data w1 →
  ∀ repo post acc e w2,
    get_star_history tok strptime network repo w1 = (Raise e, w2) →
    fetch_all tok strptime network (pre ++ repo :: post) acc w
    = (Raise e, w2).
Proof.
  induction 1 as [|w r data w1 repos rd w2 Hget _ IH];
    intros repo post acc e w3 Hraise.
  - simpl. unfold bind. by rewrite Hraise.
  - simpl. unfold bind. rewrite Hget. by apply IH.
Qed.

Lemma fetched_extends w repos repo_data w' :
  fetched w repos repo_data w' → run_extends w w' ∧ fs w' = fs w.
Proof.
  induction 1 as [|w repo data w1 repos rd w2 Hget _ [IHe IHf]].
  - split; [apply run_extends_refl|done].
  - destruct (get_star_history_run repo w)
      as (o & w1' & Hrun & _ & Hext & Hfs & _).
    rewrite Hget in Hrun. injection Hrun as <- <-.
    split; [by eapply run_extends_trans|congruence].
Qed.

(** The loop over the repositories always comes back, leaves the disk
    alone, and only prints and sends requests with the fetcher's headers. *)
Lemma fetch_all_run repos : ∀ acc w,
  ∃ o w',
    fetch_all tok strptime network repos acc w = (o, w') ∧
    o ≠ OutOfFuel ∧ run_extends w w' ∧ fs w' = fs w.
Proof.
  induction repos as [|repo repos IH]; intros acc w.
  - eexists _, _. split; [done|]. split; [done|].
    split; [apply run_extends_refl|done].
  - simpl. unfold bind.
    destruct (get_star_history_run repo w)
      as (o & w1 & -> & Ho & Hext & Hfs & _).
    destruct o as [data|e|]; [| |done].
    + destruct (IH (dict_set repo data acc) w1)
        as (o' & w' & -> & Ho' & Hext' & Hfs').
      eexists _, _. split; [done|]. split; [done|].
      split; [by eapply run_extends_trans|congruence].
    + eexists _, _. split; [done|]. by split.
Qed.

End Driver.

Lemma main_unfold tok strptime network w :
  main tok strptime network w =
  match fetch_all tok strptime network REPOS [] (warned tok w) with
  | (Ok repo_data, w1) =>
      if py_any (dict_values repo_data) then
        match generate_chart repo_data w1 with
        | (Ok _, w2) => (Ok 0, printed w2 [success_line])
        | (Raise e, w2) => (Raise e, w2)
        | (OutOfFuel, w2) => (OutOfFuel, w2)
        end
      else (Ok 1, printed w1 [failure_line])
  | (Raise e, w1) => (Raise e, w1)
  | (OutOfFuel, w1) => (OutOfFuel, w1)
  end.
Proof.
  unfold main. unfold bind at 1.
  assert ((if negb (token_set tok)
           then (print "Warning: GITHUB_TOKEN not set. API rate limits will be restrictive." ;;;
                 print "Set GITHUB_TOKEN environment variable for better rate limits.")
           else ret ()) w = (Ok (), warned tok w)) as ->.
  { unfold warned. destruct (token_set tok); simpl.
    - done.
    - unfold bind, print, printed, warning_lines. simpl.
      by rewrite <- app_assoc. }
  unfold bind at 1.
  destruct (fetch_all _ _ _ _ _ _) as [[repo_data|e|] w1]; [|done..].
  destruct (py_any (dict_values repo_data)).
  - unfold bind at 1.
    destruct (generate_chart repo_data w1) as [[[]|e|] w2]; done.
  - done.
Qed.

Lemma py_any_true (repo_data : dict series) :
  py_any (dict_values repo_data) = true ↔
  ∃ repo data, (repo, data) ∈ repo_data ∧ data ≠ [].
Proof.
  unfold py_any, dict_values. rewrite existsb_exists. split.
  - intros (data & Hin & Hd). apply list_elem_of_In in Hin.
    apply list_elem_of_fmap in Hin as ([repo data'] & -> & Hin).
    exists repo, data'. split; [done|]. by destruct data'.
  - intros (repo & data & Hin & Hne). exists data. split.
    + apply list_elem_of_In, list_elem_of_fmap. by exists (repo, data).
    + by destruct data.
Qed.

Lemma py_any_false (repo_data : dict series) :
  py_any (dict_values repo_data) = false ↔
  ∀ repo data, (repo, data) ∈ repo_data → data = [].
Proof.
  rewrite <- not_true_iff_false, py_any_true. split.
  - intros Hno repo data Hin. destruct data as [|d data]; [done|].
    destruct Hno. by exists repo, (d :: data).
  - intros Hall (repo & data & Hin & Hne). by apply Hne, (Hall repo).
Qed.

Lemma REPOS_NoDup : NoDup REPOS.
Proof. apply (bool_decide_unpack (NoDup REPOS)). by vm_compute. Qed.

Lemma warned_fs tok w : fs (warned tok w) = fs w.
Proof. unfold warned. by destruct (token_set tok). Qed.

(** C3, amended: the process always ends with status 0 or 1.  A run that an
    exception cuts short while the data is fetched ends with 1.  When every
    configured repository has produced its series, the status is 0 exactly
    when at least one series is not empty and the chart can be written, and 1
    exactly when all the series are empty or the chart cannot be written; so
    when nothing blocks the output paths, the status is 0 if and only if some
    repository has data and 1 if and only if none has, however many of them
    are empty. *)
Theorem exit_status_by_data tok strptime network w :
  let fetch := fetch_all tok strptime network REPOS [] (warned tok w) in
  let status := exit_status tok strptime network w in
  (status = Some 0 ∨ status = Some 1) ∧
  (∀ e w1, fetch = (Raise e, w1) → status = Some 1) ∧
  (∀ repo_data w1, fetch = (Ok repo_data, w1) →
     let some_data := ∃ repo data, (repo, data) ∈ repo_data ∧ data ≠ [] in
     let no_data := ∀ repo data, (repo, data) ∈ repo_data → data = [] in
     dict_keys repo_data = REPOS ∧
     (status = Some 0 ↔ some_data ∧ unobstructed (fs w)) ∧
     (status = Some 1 ↔ no_data ∨ ¬ unobstructed (fs w)) ∧
     (unobstructed (fs w) →
      (status = Some 0 ↔ some_data) ∧ (status = Some 1 ↔ no_data))).
Proof.
  intros fetch status. subst fetch status. unfold exit_status.
  rewrite main_unfold.
  destruct (fetch_all_run tok strptime network REPOS [] (warned tok w))
    as (o & w1 & Hfetch & Ho & _ & Hfs).
  rewrite warned_fs in Hfs. rewrite Hfetch.
  destruct o as [repo_data|e|]; [| |done].
  2:{ cbn [fst]. split; [by right|]. split; [done|]. intros ? ? [=]. }
  assert (dict_keys repo_data = REPOS) as Hkeys.
  { apply fetch_all_fetched in Hfetch as (new & Hnew & ->).
    - by apply fetched_keys in Hnew.
    - apply REPOS_NoDup. }
  destruct (py_any (dict_values repo_data)) eqn:Hany.
  - (* some repository has data *)
    pose proof (proj1 (py_any_true _) Hany) as Hsome.
    assert (¬ ∀ repo data, (repo, data) ∈ repo_data → data = []) as Hnot.
    { intros Hno. destruct Hsome as (repo & data & Hin & Hne).
      destruct (Hne (Hno repo data Hin)). }
    destruct (unobstructed_dec (fs w)) as [Hfree|Hblocked].
    + rewrite generate_chart_unobstructed by (by rewrite Hfs). cbn [fst].
      split; [by left|]. split; [intros ? ? [=]|].
      intros ? ? [= <- <-]. split; [done|].
      split; [done|]. split.
      { split; [done|]. by intros [?|?]. }
      intros _. split; [done|]. by split.
    + destruct (generate_chart_failure repo_data w1)
        as (e & w2 & -> & _); [by rewrite Hfs|]. cbn [fst].
      split; [by right|]. split; [intros ? ? [=]|].
      intros ? ? [= <- <-]. split; [done|].
      split. { split; [done|]. by intros [_ ?]. }
      split. { split; [by right|done]. }
      intros Hfree. destruct (Hblocked Hfree).
  - (* no repository has data *)
    pose proof (proj1 (py_any_false _) Hany) as Hno. cbn [fst].
    assert (¬ ∃ repo data, (repo, data) ∈ repo_data ∧ data ≠ []) as Hnot.
    { intros (repo & data & Hin & Hne). destruct (Hne (Hno repo data Hin)). }
    split; [by right|]. split; [intros ? ? [=]|].
    intros ? ? [= <- <-]. split; [done|].
    split. { split; [done|]. by intros [? _]. }
    split. { split; [by left|done]. }
    intros _. split; [|done]. by split.
Qed.

Lemma sample_fetch_one :
  fetch_all None Sample.strptime Sample.net_one REPOS []
    (warned None Sample.empty_world)
  = (Ok SampleRuns.data_one, SampleRuns.world_one).
Proof. by vm_compute. Qed.

Lemma sample_fetch_down :
  fetch_all None Sample.strptime Sample.net_down REPOS []
    (warned None Sample.empty_world)
  = (Ok SampleRuns.data_down, SampleRuns.world_down).
Proof. by vm_compute. Qed.

Lemma sample_fetch_blocked :
  fetch_all None Sample.strptime Sample.net_one REPOS []
    (warned None Sample.blocked_world)
  = (Ok SampleRuns.data_one,
     mk_world (stdout SampleRuns.world_one) (sent SampleRuns.world_one)
       (fs Sample.blocked_world)).
Proof. by vm_compute. Qed.

Lemma sample_data_one :
  ∃ repo data, (repo, data) ∈ SampleRuns.data_one ∧ data ≠ [].
Proof.
  exists "bittner/pyclean", [(Sample.T1, 1); (Sample.T2, 2); (Sample.T3, 3)].
  split; [|discriminate]. apply list_elem_of_here.
Qed.

Lemma sample_blocked : ¬ unobstructed (fs Sample.blocked_world).
Proof. intros [[Hdir|Hdir] _]; vm_compute in Hdir; discriminate. Qed.

Lemma exit_status_by_data_witness :
  exit_status None Sample.strptime Sample.net_one Sample.empty_world
  = Some 0 ∧
  exit_status None Sample.strptime Sample.net_down Sample.empty_world
  = Some 1 ∧
  exit_status None Sample.strptime Sample.net_one Sample.blocked_world
  = Some 1 ∧
  exit_status None Sample.strptime Sample.net_garbled Sample.empty_world
  = Some 1.
Proof.
  split; [|split; [|split]].
  - destruct (exit_status_by_data None Sample.strptime Sample.net_one
                Sample.empty_world) as (_ & _ & Hdata).
    destruct (Hdata _ _ sample_fetch_one) as (_ & Hzero & _).
    apply Hzero. split; [apply sample_data_one|].
    split; [left; reflexivity|]. vm_compute. discriminate.
  - destruct (exit_status_by_data None Sample.strptime Sample.net_down
                Sample.empty_world) as (_ & _ & Hdata).
    destruct (Hdata _ _ sample_fetch_down) as (_ & _ & Hone & _).
    apply Hone. left.
    intros repo data Hin. unfold SampleRuns.data_down, REPOS in Hin.
    simpl in Hin.
    repeat (apply elem_of_cons in Hin as [Hin|Hin];
            [by injection Hin as _ ->|]).
    by apply elem_of_nil in Hin.
  - destruct (exit_status_by_data None Sample.strptime Sample.net_one
                Sample.blocked_world) as (_ & _ & Hdata).
    destruct (Hdata _ _ sample_fetch_blocked) as (_ & _ & Hone & _).
    apply Hone. right. apply sample_blocked.
  - destruct (fetch_all None Sample.strptime Sample.net_garbled REPOS []
                (warned None Sample.empty_world)) as [[repo_data|e|] w1]
      eqn:Hfetch.
    + vm_compute in Hfetch. discriminate.
    + apply (proj1 (proj2 (exit_status_by_data None Sample.strptime
               Sample.net_garbled Sample.empty_world)) e w1 Hfetch).
    + vm_compute in Hfetch. discriminate.
Defined.

(** C3, as it stands, fails: with a regular file where the output directory
    should be, the first repository produces a series of three stars, and
    still the renderer raises and the process ends with status 1, not 0,
    although not every series is empty. *)
Lemma data_but_exit_status_1 :
  let status :=
    exit_status None Sample.strptime Sample.net_one Sample.blocked_world in
  let some_data :=
    ∃ repo data, (repo, data) ∈ SampleRuns.data_one ∧ data ≠ [] in
  let no_data :=
    ∀ repo data, (repo, data) ∈ SampleRuns.data_one → data = [] in
  (∃ w1,
     fetch_all None Sample.strptime Sample.net_one REPOS []
       (warned None Sample.blocked_world) = (Ok SampleRuns.data_one, w1)) ∧
  (main None Sample.strptime Sample.net_one Sample.blocked_world).1 =
    Raise (FileExistsError OUTPUT_DIR) ∧
  status = Some 1 ∧
  some_data ∧
  ¬ (status = Some 0 ↔ some_data) ∧
  ¬ (status = Some 1 ↔ no_data).
Proof.
  intros status some_data no_data.
  assert (status = Some 1) as Hstatus by (by vm_compute).
  split; [eexists; apply sample_fetch_blocked|].
  split; [by vm_compute|]. split; [done|].
  split; [apply sample_data_one|]. rewrite Hstatus. split.
  - intros [_ Hzero]. by specialize (Hzero sample_data_one).
  - intros [Hno _]. specialize (Hno eq_refl).
    destruct sample_data_one as (repo & data & Hin & Hne).
    destruct (Hne (Hno repo data Hin)).
Qed.

Lemma dict_get_lookup {V} (d : dict V) : ∀ i k v,
  NoDup (dict_keys d) → d !! i = Some (k, v) → dict_get k d = Some v.
Proof.
  unfold dict_keys. induction d as [|[k' v'] d IH]; intros i k v Hnd Hi.
  - done.
  - simpl in *. apply NoDup_cons in Hnd as [Hk' Hnd].
    destruct i as [|i]; simpl in Hi.
    + injection Hi as -> ->. by rewrite decide_True.
    + rewrite decide_False; [by eapply IH|].
      intros ->. apply Hk'. apply list_elem_of_fmap. exists (k, v).
      split; [done|]. by eapply list_elem_of_lookup_2.
Qed.

(** C8: when the loop over [REPOS] has run through, the mapping has exactly
    the configured repositories as its keys, in the order of the
    configuration, each with the series [get_star_history] returned for it in
    its turn; no key is missing, and a repository whose first request was
    refused is there with the empty series. *)
Theorem repo_data_complete tok strptime network w repo_data w' :
  fetch_all tok strptime network REPOS [] w = (Ok repo_data, w') →
  dict_keys repo_data = REPOS ∧
  fetched tok strptime network w REPOS repo_data w' ∧
  (∀ repo, repo ∈ REPOS → ∃ data, dict_get repo repo_data = Some data) ∧
  (∀ pre repo post rd_pre w_i owner name,
     REPOS = pre ++ repo :: post →
     fetched tok strptime network w pre rd_pre w_i →
     unpack2 (split "/" repo) = Ok (owner, name) →
     status_code
       (nth_answer network (api_url owner name) (api_headers tok) w_i 1 0)
       ≠ 200 →
     repo_data !! length pre = Some (repo, []) ∧
     dict_get repo repo_data = Some []).
Proof.
  intros Hrun.
  apply fetch_all_fetched in Hrun as (new & Hnew & ->);
    [|apply REPOS_NoDup].
  simpl. pose proof (fetched_keys _ _ _ _ _ _ _ Hnew) as Hkeys.
  assert (NoDup (dict_keys new)) as Hnd
    by (rewrite Hkeys; apply REPOS_NoDup).
  split; [done|]. split; [done|]. split.
  - intros repo Hin. rewrite <- Hkeys in Hin. unfold dict_keys in Hin.
    apply list_elem_of_fmap in Hin as ([repo' data] & -> & Hin).
    apply list_elem_of_lookup in Hin as [i Hi].
    exists data. by eapply dict_get_lookup.
  - intros pre repo post rd_pre w_i owner name Hsplit Hpre Hname Hrefused.
    rewrite Hsplit in Hnew.
    apply fetched_app_inv in Hnew as (rd1 & rd2 & w1 & H1 & H2 & ->).
    destruct (fetched_det _ _ _ _ _ _ _ Hpre _ _ H1) as [<- <-].
    inversion H2 as [|? ? data w2 ? rd ? Hget Hrest]; subst.
    destruct (first_request_refused tok strptime network repo owner name w_i
                Hname Hrefused) as [w2' Hempty].
    rewrite Hempty in Hget. injection Hget as <- <-.
    assert (length pre = length rd_pre) as ->.
    { apply fetched_keys in Hpre. rewrite <- Hpre. unfold dict_keys.
      by rewrite length_fmap. }
    assert ((rd_pre ++ (repo, []) :: rd) !! length rd_pre
            = Some (repo, @nil (datetime * Z))) as Hi
      by apply list_lookup_middle, eq_refl.
    split; [done|]. by eapply dict_get_lookup.
Qed.

Lemma repo_data_complete_witness :
  dict_keys SampleRuns.data_down = REPOS ∧
  fetched None Sample.strptime Sample.net_down
    (warned None Sample.empty_world) REPOS SampleRuns.data_down
    SampleRuns.world_down ∧
  (∀ repo, repo ∈ REPOS →
     ∃ data, dict_get repo SampleRuns.data_down = Some data) ∧
  (∀ pre repo post rd_pre w_i owner name,
     REPOS = pre ++ repo :: post →
     fetched None Sample.strptime Sample.net_down
       (warned None Sample.empty_world) pre rd_pre w_i →
     unpack2 (split "/" repo) = Ok (owner, name) →
     status_code
       (nth_answer Sample.net_down (api_url owner name) (api_headers None)
          w_i 1 0) ≠ 200 →
     SampleRuns.data_down !! length pre = Some (repo, []) ∧
     dict_get repo SampleRuns.data_down = Some []).
Proof.
  apply (repo_data_complete None Sample.strptime Sample.net_down
           (warned None Sample.empty_world) SampleRuns.data_down
           SampleRuns.world_down).
  vm_compute. reflexivity.
Defined.

(** ** Malformed pages *)

Lemma collect_malformed strptime items item :
  item ∈ items → malformed strptime item →
  ∀ stars, ∃ e, collect strptime items stars = Raise e.
Proof.
  intros Hin (d & -> & Hbad).
  induction items as [|first items IH]; intros stars.
  - by apply elem_of_nil in Hin.
  - apply elem_of_cons in Hin as [<-|Hin].
    + simpl. destruct Hbad as [->|(s & -> & Hs)].
      * by exists (KeyError "starred_at").
      * simpl. rewrite Hs. by exists ValueError.
    + simpl.
      destruct (py_getitem first "starred_at") as [v|e|] eqn:Hv;
        [|by exists e|].
      * destruct (py_strptime strptime v STARRED_AT_FORMAT) as [t|e|] eqn:Ht;
          [by apply IH|by exists e|].
        destruct v; simpl in Ht; try done. by destruct (strptime s _).
      * destruct first as [| | | | |d0]; simpl in Hv; try done.
        by destruct (dict_get "starred_at" d0).
Qed.

Lemma collection_malformed tok strptime network repo owner name w k items ds :
  let url := api_url owner name in
  let headers := api_headers tok in
  let r := nth_answer network url headers w 1 k in
  (k < 100)%nat →
  (∀ i, (i < k)%nat →
     good_page strptime (nth_answer network url headers w 1 i)
       (items i) (ds i) ∧
     (100 ≤ length (items i))%nat) →
  status_code r = 200 →
  (json_body r = None ∨
   ∃ page item, json_body r = Some (JList page) ∧ item ∈ page ∧
                malformed strptime item) →
  ∃ e w',
    collection tok strptime network repo owner name w = (Raise e, w').
Proof.
  intros url headers r Hcap Hpages Hs Hbad.
  rewrite (collection_after_pages tok strptime network repo owner name w k
             items ds Hcap Hpages).
  pose proof (answer_after_pages tok network repo owner name w k items)
    as Hanswer.
  fold url headers r in Hanswer |- *.
  destruct Hbad as [Hj|(page & item & Hj & Hin & Hitem)].
  - eexists _, _. apply fetch_pages_bad_json; by rewrite Hanswer.
  - destruct (collect_malformed strptime page item Hin Hitem [])
      as [e He].
    eexists _, _. eapply fetch_pages_bad_item; rewrite ?Hanswer; eauto.
Qed.

(** C9: a page that comes back with status 200 but whose body is not JSON,
    or holds an item without ["starred_at"], or with a ["starred_at"] that
    does not parse, is not contained the way a non-200 status is: the
    exception leaves [get_star_history], and [main] with it, whatever the
    repositories before had delivered; nothing is written to disk. *)
Theorem malformed_page_aborts tok strptime network w pre repo post rd_pre w_i
    owner name k items ds :
  let url := api_url owner name in
  let headers := api_headers tok in
  let r := nth_answer network url headers w_i 1 k in
  REPOS = pre ++ repo :: post →
  fetched tok strptime network (warned tok w) pre rd_pre w_i →
  unpack2 (split "/" repo) = Ok (owner, name) →
  (k < 100)%nat →
  (∀ i, (i < k)%nat →
     good_page strptime (nth_answer network url headers w_i 1 i)
       (items i) (ds i) ∧
     (100 ≤ length (items i))%nat) →
  status_code r = 200 →
  (json_body r = None ∨
   ∃ page item, json_body r = Some (JList page) ∧ item ∈ page ∧
                malformed strptime item) →
  ∃ e w',
    get_star_history tok strptime network repo w_i = (Raise e, w') ∧
    main tok strptime network w = (Raise e, w') ∧
    fs w' = fs w.
Proof.
  intros url headers r Hrepos Hpre Hname Hcap Hpages Hs Hbad.
  destruct (collection_malformed tok strptime network repo owner name w_i k
              items ds Hcap Hpages Hs Hbad) as (e & w' & Hcoll).
  assert (get_star_history tok strptime network repo w_i = (Raise e, w'))
    as Hget.
  { by rewrite (get_star_history_unfold _ _ _ _ _ _ _ Hname), Hcoll. }
  exists e, w'. split; [done|]. split.
  - rewrite main_unfold, Hrepos.
    by rewrite (fetch_all_raise _ _ _ _ _ _ _ Hpre repo post [] e w' Hget).
  - destruct (get_star_history_run tok strptime network repo w_i)
      as (o & w2 & Hrun & _ & _ & Hfs & _).
    rewrite Hget in Hrun. injection Hrun as <- <-. rewrite Hfs.
    destruct (fetched_extends _ _ _ _ _ _ _ Hpre) as [_ ->].
    apply warned_fs.
Qed.

Lemma malformed_page_aborts_witness :
  ∃ e w',
    get_star_history None Sample.strptime Sample.net_garbled
      "bittner/pyclean" (warned None Sample.empty_world) = (Raise e, w') ∧
    main None Sample.strptime Sample.net_garbled Sample.empty_world
      = (Raise e, w') ∧
    fs w' = fs Sample.empty_world.
Proof.
  apply (malformed_page_aborts None Sample.strptime Sample.net_garbled
           Sample.empty_world [] "bittner/pyclean" (tail REPOS) []
           (warned None Sample.empty_world) "bittner" "pyclean" 0
           (λ _, []) (λ _, [])).
  - reflexivity.
  - constructor.
  - reflexivity.
  - lia.
  - intros i Hi. lia.
  - reflexivity.
  - left. reflexivity.
Defined.

(** ** The credential *)

Lemma generate_chart_run tok repo_data w :
  ∃ o w',
    generate_chart repo_data w = (o, w') ∧ o ≠ OutOfFuel ∧
    run_extends tok w w'.
Proof.
  unfold generate_chart. unfold bind at 1, lift.
  rewrite plot_all_chart_lines. unfold bind at 1, mkdir_parents_exist_ok.
  destruct (mkdir_from [] OUTPUT_DIR (fs w)) as [t|e|] eqn:Hmk.
  3:{ unfold OUTPUT_DIR in Hmk. simpl in Hmk.
      by destruct (fs w !! ["star-history"]) as [[|c]|]. }
  2:{ eexists _, _. split; [done|]. split; [done|]. apply run_extends_refl. }
  unfold bind, savefig, print. cbn [fs stdout sent].
  assert (run_extends tok w (mk_world (stdout w) (sent w) t)) as Hsame.
  { split; [exists []|exists []]; simpl; rewrite app_nil_r; [done|].
    split; [done|constructor]. }
  assert (∀ t', run_extends tok w
                  (mk_world (stdout w ++ [saved_line]) (sent w) t')) as Hline.
  { intros t'. split; [by exists [saved_line]|]. exists []. simpl.
    rewrite app_nil_r. split; [done|constructor]. }
  destruct (if decide (removelast OUTPUT_FILE = []) then Some Dir
            else t !! removelast OUTPUT_FILE) as [[|c]|];
    [|by eexists _, _..].
  destruct (t !! OUTPUT_FILE) as [[|c]|]; eexists _, _; split; try done.
Qed.

Lemma run_extends_sent tok w w' :
  run_extends tok w w' → (length (sent w) ≤ length (sent w'))%nat.
Proof. intros [_ (reqs & -> & _)]. rewrite length_app. lia. Qed.

(** A run of [main] always comes back; it prints, and it sends at least one
    request, each with the headers [get_star_history] builds. *)
Lemma main_run tok strptime network w :
  ∃ o w',
    main tok strptime network w = (o, w') ∧ o ≠ OutOfFuel ∧
    run_extends tok (warned tok w) w' ∧
    (length (sent w) < length (sent w'))%nat.
Proof.
  rewrite main_unfold.
  assert (∀ acc w0,
            fetch_all tok strptime network REPOS acc w0 =
            (data <- get_star_history tok strptime network "bittner/pyclean" ;;
             fetch_all tok strptime network (tail REPOS)
               (dict_set "bittner/pyclean" data acc)) w0) as -> by done.
  unfold bind at 1.
  destruct (get_star_history_run tok strptime network "bittner/pyclean"
              (warned tok w)) as (o0 & w0 & -> & Ho0 & Hext0 & _ & Hnew).
  assert (length (sent w) < length (sent w0))%nat as Hlen.
  { specialize (Hnew "bittner" "pyclean" eq_refl).
    destruct Hext0 as [_ (reqs & Hreqs & _)].
    assert (sent (warned tok w) = sent w) as Hw
      by (unfold warned; by destruct (token_set tok)).
    rewrite Hw in *. rewrite Hreqs in *. rewrite length_app.
    destruct reqs; [by rewrite app_nil_r in Hnew|simpl; lia]. }
  destruct o0 as [data|e|]; [| |done].
  2:{ eexists _, _. split; [done|]. split; [done|]. by split. }
  destruct (fetch_all_run tok strptime network
              (tail REPOS) (dict_set "bittner/pyclean" data []) w0)
    as (o1 & w1 & -> & Ho1 & Hext1 & _).
  pose proof (run_extends_trans _ _ _ _ Hext0 Hext1) as Hext01.
  pose proof (run_extends_sent _ _ _ Hext1) as Hlen1.
  destruct o1 as [repo_data|e|]; [| |done].
  2:{ eexists _, _. split; [done|]. split; [done|]. split; [done|lia]. }
  destruct (py_any (dict_values repo_data)).
  - destruct (generate_chart_run tok repo_data w1)
      as (o2 & w2 & -> & Ho2 & Hext2).
    pose proof (run_extends_trans _ _ _ _ Hext01 Hext2) as Hext02.
    pose proof (run_extends_sent _ _ _ Hext2) as Hlen2.
    destruct o2 as [[]|e|]; [| |done].
    + eexists _, _. split; [done|]. split; [done|]. split.
      * eapply run_extends_trans; [exact Hext02|apply printed_extends].
      * simpl. lia.
    + eexists _, _. split; [done|]. split; [done|]. split; [done|lia].
  - eexists _, _. split; [done|]. split; [done|]. split.
    + eapply run_extends_trans; [exact Hext01|apply printed_extends].
    + simpl. lia.
Qed.

Lemma api_headers_token t :
  t ≠ "" →
  api_headers (Some t) =
  [("Accept", "application/vnd.github.v3.star+json");
   ("Authorization", "token " +:+ t)].
Proof.
  intros Ht. unfold api_headers, token_set, token_text. simpl.
  destruct (String.eqb_spec t ""); done.
Qed.

(** C6: with a credential in [GITHUB_TOKEN], every request of the run,
    whatever the repository and the page, has the header [Authorization] with
    the value [token <credential>], and there is at least one request.
    Without the variable the run goes on all the same: the two warning lines
    are printed first, requests are sent, and none of them has an
    [Authorization] header. *)
Theorem authorization_header strptime network w :
  (∀ t, t ≠ "" →
     ∃ o w' reqs,
       main (Some t) strptime network w = (o, w') ∧
       sent w' = sent w ++ reqs ∧ reqs ≠ [] ∧
       Forall (λ r, dict_get "Authorization" (req_headers r)
                    = Some ("token " +:+ t)) reqs) ∧
  (∃ o w' reqs lines,
     main None strptime network w = (o, w') ∧
     o ≠ OutOfFuel ∧
     stdout w' = stdout w ++ warning_lines ++ lines ∧
     sent w' = sent w ++ reqs ∧ reqs ≠ [] ∧
     Forall (λ r, dict_get "Authorization" (req_headers r) = None) reqs).
Proof.
  split.
  - intros t Ht.
    destruct (main_run (Some t) strptime network w)
      as (o & w' & Hmain & _ & [_ (reqs & Hsent & Hreqs)] & Hlen).
    assert (warned (Some t) w = w) as Hw.
    { unfold warned, token_set. by destruct (String.eqb_spec t ""). }
    rewrite Hw in Hsent. exists o, w', reqs. split; [done|].
    split; [done|]. split.
    + intros ->. rewrite Hsent, app_nil_r in Hlen. lia.
    + eapply Forall_impl; [exact Hreqs|]. intros r ->.
      by rewrite api_headers_token.
  - destruct (main_run None strptime network w)
      as (o & w' & Hmain & Ho & [[lines Hout] (reqs & Hsent & Hreqs)] & Hlen).
    change (warned None w) with (printed w warning_lines) in Hout, Hsent.
    cbn [printed stdout sent] in Hout, Hsent.
    exists o, w', reqs, lines. split; [done|]. split; [done|].
    split; [by rewrite Hout, <- app_assoc|]. split; [done|]. split.
    + intros ->. simpl in Hsent. rewrite Hsent, app_nil_r in Hlen. lia.
    + eapply Forall_impl; [exact Hreqs|]. by intros r ->.
Qed.

Lemma authorization_header_witness :
  ∃ o w' reqs,
    main (Some "ghp_example") Sample.strptime Sample.net_one
      Sample.empty_world = (o, w') ∧
    sent w' = sent Sample.empty_world ++ reqs ∧ reqs ≠ [] ∧
    Forall (λ r, dict_get "Authorization" (req_headers r)
                 = Some ("token " +:+ "ghp_example")) reqs.
Proof.
  apply (proj1 (authorization_header Sample.strptime Sample.net_one
                  Sample.empty_world) "ghp_example").
  discriminate.
Defined.

(** * Further properties of the script *)

(** ** Repository names and addresses *)

Lemma split_length sep s : length (split sep s) = S (count_char sep s).
Proof.
  induction s as [|c s IH]; [done|]. simpl.
  destruct (decide (c = sep)); simpl; [by rewrite IH|].
  destruct (split sep s); simpl in *; lia.
Qed.

Lemma split_join sep s : join sep (split sep s) = s.
Proof.
  induction s as [|c s IH]; [done|]. simpl.
  destruct (decide (c = sep)) as [->|Hne].
  - destruct (split sep s) as [|part rest] eqn:Hs.
    + pose proof (split_length sep s) as Hl. by rewrite Hs in Hl.
    + change (join sep (EmptyString :: part :: rest))
        with (String sep (join sep (part :: rest))).
      by rewrite IH.
  - destruct (split sep s) as [|part rest] eqn:Hs.
    + pose proof (split_length sep s) as Hl. by rewrite Hs in Hl.
    + rewrite <- IH. by destruct rest.
Qed.

Lemma string_app_assoc (a b c : string) : (a +:+ b) +:+ c = a +:+ (b +:+ c).
Proof.
  induction a as [|x a IH]; [done|].
  change (String x ((a +:+ b) +:+ c) = String x (a +:+ (b +:+ c))).
  by rewrite IH.
Qed.

Lemma unpack2_slashes repo :
  (∃ owner name, unpack2 (split "/" repo) = Ok (owner, name)) ↔
  count_char "/" repo = 1%nat.
Proof.
  pose proof (split_length "/" repo) as Hl. split.
  - intros (owner & name & Hu).
    destruct (split "/" repo) as [|a [|b [|c rest]]]; try done.
    simpl in Hl. lia.
  - intros Hc. rewrite Hc in Hl.
    destruct (split "/" repo) as [|a [|b [|c rest]]]; try done.
    by exists a, b.
Qed.

Lemma unpack2_not_two repo :
  count_char "/" repo ≠ 1%nat →
  unpack2 (split "/" repo) = Raise ValueError.
Proof.
  intros Hc. pose proof (split_length "/" repo) as Hl.
  destruct (split "/" repo) as [|a [|b [|c rest]]]; try done.
  simpl in Hl. lia.
Qed.

Lemma api_url_stargazers repo owner name :
  unpack2 (split "/" repo) = Ok (owner, name) →
  api_url owner name = stargazers_url repo.
Proof.
  intros Hu. pose proof (split_join "/" repo) as Hj.
  destruct (split "/" repo) as [|a [|b [|c rest]]]; try done.
  injection Hu as -> ->. unfold api_url, stargazers_url. rewrite <- Hj.
  change (join "/" [owner; name]) with (owner +:+ "/" +:+ name).
  by rewrite !string_app_assoc.
Qed.

(** The requests of one call of [get_star_history]: pages 1 to [n] of the
    repository's stargazers address, with [n] at most 100, and none at all
    for a name that is not of the form owner/name. *)
Lemma get_star_history_requests tok strptime network repo w :
  ∃ o w' n,
    get_star_history tok strptime network repo w = (o, w') ∧
    o ≠ OutOfFuel ∧
    (n ≤ 100)%nat ∧
    (count_char "/" repo = 1%nat → (1 ≤ n)%nat) ∧
    sent w' =
      sent w ++ requests_from (stargazers_url repo) (api_headers tok) 1 n ∧
    fs w' = fs w.
Proof.
  destruct (decide (count_char "/" repo = 1%nat)) as [Hc|Hc].
  - apply unpack2_slashes in Hc as (owner & name & Hname).
    rewrite (get_star_history_unfold _ _ _ _ _ _ _ Hname). unfold collection.
    rewrite (api_url_stargazers _ _ _ Hname).
    destruct (fetch_pages_bounded strptime network repo (stargazers_url repo)
                (api_headers tok) (Z.to_nat MAX_PAGES) 1 [] (started repo w))
      as (o & w' & n & Hall & Ho & Hn1 & Hn2 & Hsent & Hfs & _);
      [unfold MAX_PAGES; lia..|].
    rewrite (Hall _ (le_n _)). unfold MAX_PAGES in Hn2.
    destruct o as [stars|e|]; [| |done]; eexists _, _, n;
      (split; [done|]); (split; [done|]); (split; [lia|]);
      (split; [done|]); by split.
  - rewrite (get_star_history_bad_name _ _ _ _ _ _ (unpack2_not_two _ Hc)).
    exists (Raise ValueError), w, 0%nat. split; [done|]. split; [done|].
    split; [lia|]. split; [done|]. split; [|done].
    unfold requests_from. simpl. by rewrite app_nil_r.
Qed.

(** X1: a repository name that does not have exactly one slash makes
    [get_star_history] raise [ValueError] at once: nothing is printed and no
    request is sent. *)
Theorem malformed_name_rejected tok strptime network repo w :
  count_char "/" repo ≠ 1%nat →
  get_star_history tok strptime network repo w = (Raise ValueError, w).
Proof.
  intros Hc. apply get_star_history_bad_name. by apply unpack2_not_two.
Qed.

Lemma malformed_name_rejected_witness :
  get_star_history None Sample.strptime Sample.net_one "pyclean"
    Sample.empty_world = (Raise ValueError, Sample.empty_world) ∧
  get_star_history None Sample.strptime Sample.net_one "github.com/behave/behave"
    Sample.empty_world = (Raise ValueError, Sample.empty_world).
Proof.
  split.
  - apply (malformed_name_rejected None Sample.strptime Sample.net_one
             "pyclean" Sample.empty_world). vm_compute. lia.
  - apply (malformed_name_rejected None Sample.strptime Sample.net_one
             "github.com/behave/behave" Sample.empty_world).
    vm_compute. lia.
Defined.

(** X2: for a name with exactly one slash, every request of
    [get_star_history] goes to
    [https://api.github.com/repos/<name>/stargazers]; there is at least one
    and at most 100 of them, for pages 1, 2, ... in this order. *)
Theorem requests_go_to_stargazers tok strptime network repo w :
  count_char "/" repo = 1%nat →
  ∃ o w' n,
    get_star_history tok strptime network repo w = (o, w') ∧
    (1 ≤ n)%nat ∧ (n ≤ 100)%nat ∧
    sent w' =
      sent w ++
      ((λ p, mk_request
               ("https://api.github.com/repos/" +:+ repo +:+ "/stargazers")
               (api_headers tok) [("page", Z.of_nat p); ("per_page", 100)])
         <$> seq 1 n).
Proof.
  intros Hc.
  destruct (get_star_history_requests tok strptime network repo w)
    as (o & w' & n & Hrun & _ & Hn & Hn1 & Hsent & _).
  exists o, w', n. split; [done|]. split; [by apply Hn1|]. split; [done|].
  by rewrite Hsent, requests_from_pages.
Qed.

Lemma requests_go_to_stargazers_witness :
  ∃ o w' n,
    get_star_history None Sample.strptime Sample.net_short "behave/behave"
      Sample.empty_world = (o, w') ∧
    (1 ≤ n)%nat ∧ (n ≤ 100)%nat ∧
    sent w' =
      sent Sample.empty_world ++
      ((λ p, mk_request
               ("https://api.github.com/repos/" +:+ "behave/behave"
                  +:+ "/stargazers")
               (api_headers None) [("page", Z.of_nat p); ("per_page", 100)])
         <$> seq 1 n).
Proof.
  apply (requests_go_to_stargazers None Sample.strptime Sample.net_short
           "behave/behave" Sample.empty_world).
  reflexivity.
Defined.

(** ** Other ways the pagination loop ends *)

Lemma collection_falsy tok strptime network repo owner name w k items ds data :
  let url := api_url owner name in
  let headers := api_headers tok in
  let r := nth_answer network url headers w 1 k in
  (k < 100)%nat →
  (∀ i, (i < k)%nat →
     good_page strptime (nth_answer network url headers w 1 i)
       (items i) (ds i) ∧
     (100 ≤ length (items i))%nat) →
  status_code r = 200 →
  json_body r = Some data →
  truthy data = false →
  collection tok strptime network repo owner name w =
  (Ok (gathered ds k),
   after (world_after_pages tok repo owner name w k items)
     [page_request url headers (1 + Z.of_nat k)] []).
Proof.
  intros url headers r Hcap Hpages Hs Hj Ht.
  rewrite (collection_after_pages tok strptime network repo owner name w k
             items ds Hcap Hpages).
  pose proof (answer_after_pages tok network repo owner name w k items)
    as Hanswer.
  fold url headers r in Hanswer |- *.
  eapply fetch_pages_falsy; rewrite ?Hanswer; eauto.
Qed.

(** X3: a status-200 answer whose body is falsy ([[]], [{}], [null],
    [false], [0] or the empty string) counts as the end of the data: after
    [k] full pages it ends the loop without any line for that page, and
    [get_star_history] returns normally with the series of those [k]
    pages. *)
Theorem falsy_body_ends_silently tok strptime network repo owner name w k
    items ds data :
  let url := api_url owner name in
  let headers := api_headers tok in
  let r := nth_answer network url headers w 1 k in
  unpack2 (split "/" repo) = Ok (owner, name) →
  (k < 100)%nat →
  (∀ i, (i < k)%nat →
     good_page strptime (nth_answer network url headers w 1 i)
       (items i) (ds i) ∧
     (100 ≤ length (items i))%nat) →
  status_code r = 200 →
  json_body r = Some data →
  truthy data = false →
  ∃ w',
    get_star_history tok strptime network repo w =
      (Ok (cumulative (merge_sort datetime_le (gathered ds k))), w') ∧
    sent w' =
      sent w ++
      ((λ p, mk_request url headers [("page", Z.of_nat p); ("per_page", 100)])
         <$> seq 1 (S k)) ∧
    stdout w' =
      stdout w ++ ["Fetching star data for " +:+ repo +:+ "..."] ++
      fetched_lines 1 items k ++ [total_line (gathered ds k)] ∧
    fs w' = fs w.
Proof.
  intros url headers r Hname Hcap Hpages Hs Hj Ht.
  rewrite (get_star_history_unfold _ _ _ _ _ _ _ Hname).
  rewrite (collection_falsy tok strptime network repo owner name w k items ds
             data Hcap Hpages Hs Hj Ht).
  eexists. split; [done|]. rewrite total_line_sorted.
  unfold printed, world_after_pages, started, printed, after.
  cbn [sent stdout fs]. fold url headers.
  split; [|split; [|done]].
  - rewrite <- (requests_from_pages url headers (S k)).
    unfold requests_from. by rewrite seq_S, fmap_app, !app_assoc.
  - by rewrite app_nil_r, <- !app_assoc.
Qed.

Lemma falsy_body_ends_silently_witness :
  ∃ w',
    get_star_history None Sample.strptime Sample.net_null "behave/behave"
      Sample.empty_world =
      (Ok (cumulative (merge_sort datetime_le (gathered (λ _, []) 0))), w') ∧
    sent w' =
      [mk_request "https://api.github.com/repos/behave/behave/stargazers"
         [("Accept", "application/vnd.github.v3.star+json")]
         [("page", 1); ("per_page", 100)]] ∧
    stdout w' =
      ["Fetching star data for behave/behave..."; "  Total stars: 0"] ∧
    fs w' = ∅.
Proof.
  apply (falsy_body_ends_silently None Sample.strptime Sample.net_null
           "behave/behave" "behave" "behave" Sample.empty_world 0
           (λ _, []) (λ _, []) JNull).
  - reflexivity.
  - lia.
  - intros i Hi. lia.
  - reflexivity.
  - reflexivity.
  - reflexivity.
Defined.

Lemma collect_prefix strptime pre : ∀ rest stars dsp,
  collect strptime pre [] = Ok dsp →
  collect strptime (pre ++ rest) stars = collect strptime rest (stars ++ dsp).
Proof.
  induction pre as [|item pre IH]; intros rest stars dsp Hpre.
  - simpl in Hpre. injection Hpre as <-. by rewrite app_nil_r.
  - simpl in *.
    destruct (py_getitem item "starred_at") as [v| |]; try done.
    destruct (py_strptime strptime v STARRED_AT_FORMAT) as [d| |]; try done.
    rewrite collect_app in Hpre.
    destruct (collect strptime pre []) as [dsp'| |] eqn:Hpre'; try done.
    injection Hpre as <-. rewrite (IH rest (stars ++ [d]) dsp' eq_refl).
    by rewrite <- app_assoc.
Qed.

Lemma collect_not_a_record strptime pre item post dsp :
  collect strptime pre [] = Ok dsp →
  not_a_star_record item →
  collect strptime (pre ++ item :: post) [] = Raise TypeError.
Proof.
  intros Hpre Hitem. rewrite (collect_prefix _ _ _ _ _ Hpre). simpl.
  destruct Hitem as [Hnd|(d & v & -> & Hv & Hns)].
  - destruct item as [| | | | |d]; try done. by destruct (Hnd d).
  - simpl. rewrite Hv. destruct v as [| | |s| |]; try done.
    by destruct (Hns s).
Qed.

(** X4: a status-200 answer whose body is truthy but not a list (an error
    object, a string, a number, [true]), or a list in which the first item
    that fails is not an object or has a ["starred_at"] that is not a string,
    makes [get_star_history] raise [TypeError], after [k] full pages as well
    as on the first page; the disk is left alone. *)
Theorem unexpected_body_raises tok strptime network repo owner name w k
    items ds data :
  let url := api_url owner name in
  let headers := api_headers tok in
  let r := nth_answer network url headers w 1 k in
  unpack2 (split "/" repo) = Ok (owner, name) →
  (k < 100)%nat →
  (∀ i, (i < k)%nat →
     good_page strptime (nth_answer network url headers w 1 i)
       (items i) (ds i) ∧
     (100 ≤ length (items i))%nat) →
  status_code r = 200 →
  json_body r = Some data →
  ((truthy data = true ∧ ∀ page, data ≠ JList page) ∨
   ∃ pre item post dsp,
     data = JList (pre ++ item :: post) ∧
     collect strptime pre [] = Ok dsp ∧ not_a_star_record item) →
  ∃ w',
    get_star_history tok strptime network repo w = (Raise TypeError, w') ∧
    fs w' = fs w.
Proof.
  intros url headers r Hname Hcap Hpages Hs Hj Hbad.
  rewrite (get_star_history_unfold _ _ _ _ _ _ _ Hname).
  rewrite (collection_after_pages tok strptime network repo owner name w k
             items ds Hcap Hpages).
  pose proof (answer_after_pages tok network repo owner name w k items)
    as Hanswer.
  fold url headers r in Hanswer |- *.
  destruct Hbad as [[Ht Hnl]|(pre & item & post & dsp & -> & Hpre & Hitem)].
  - erewrite fetch_pages_not_list; rewrite ?Hanswer; eauto.
  - erewrite fetch_pages_bad_item; rewrite ?Hanswer; eauto.
    by eapply collect_not_a_record.
Qed.

Lemma unexpected_body_raises_witness :
  ∃ w',
    get_star_history None Sample.strptime Sample.net_object "behave/behave"
      Sample.empty_world = (Raise TypeError, w') ∧
    fs w' = fs Sample.empty_world.
Proof.
  apply (unexpected_body_raises None Sample.strptime Sample.net_object
           "behave/behave" "behave" "behave" Sample.empty_world 0
           (λ _, []) (λ _, []) (JDict [("message", JStr "Moved")])).
  - reflexivity.
  - lia.
  - intros i Hi. lia.
  - reflexivity.
  - reflexivity.
  - left. split; [reflexivity|]. intros page. discriminate.
Defined.

(** X5: when each of the first 100 pages is full, [get_star_history] sends
    exactly the requests for pages 1 to 100 and never one for page 101,
    prints the line about the page limit, and returns normally with the
    series of the timestamps of those 100 pages: the truncation is not an
    error. *)
Theorem page_cap_truncates tok strptime network repo owner name w items ds :
  let url := api_url owner name in
  let headers := api_headers tok in
  unpack2 (split "/" repo) = Ok (owner, name) →
  (∀ i, (i < 100)%nat →
     good_page strptime (nth_answer network url headers w 1 i)
       (items i) (ds i) ∧
     (100 ≤ length (items i))%nat) →
  ∃ w',
    get_star_history tok strptime network repo w =
      (Ok (cumulative (merge_sort datetime_le (gathered ds 100))), w') ∧
    sent w' =
      sent w ++
      ((λ p, mk_request url headers [("page", Z.of_nat p); ("per_page", 100)])
         <$> seq 1 100) ∧
    stdout w' =
      stdout w ++ ["Fetching star data for " +:+ repo +:+ "..."] ++
      fetched_lines 1 items 100 ++
      ["  Reached maximum page limit for " +:+ repo;
       total_line (gathered ds 100)] ∧
    fs w' = fs w.
Proof.
  intros url headers Hname Hpages.
  rewrite (get_star_history_unfold _ _ _ _ _ _ _ Hname).
  assert (99 < 100)%nat as Hcap by lia.
  assert (∀ i, (i < 99)%nat →
            good_page strptime (nth_answer network url headers w 1 i)
              (items i) (ds i) ∧ (100 ≤ length (items i))%nat) as Hpages'
    by (intros i Hi; apply Hpages; lia).
  rewrite (collection_after_pages tok strptime network repo owner name w 99
             items ds Hcap Hpages').
  pose proof (answer_after_pages tok network repo owner name w 99 items)
    as Hanswer.
  fold url headers in Hanswer |- *.
  destruct (Hpages 99%nat ltac:(lia)) as [Hgood Hlen].
  rewrite <- Hanswer in Hgood.
  assert (items 99%nat ≠ []) as Hne.
  { intros Heq. rewrite Heq in Hlen. simpl in Hlen. lia. }
  rewrite (fetch_pages_good _ _ _ _ _ _ _ _ _ _ _ Hgood Hne). cbv zeta.
  destruct (Z.ltb_spec (Z.of_nat (length (items 99%nat))) PER_PAGE) as [Hlt|_];
    [unfold PER_PAGE in Hlt; lia|].
  destruct (Z.gtb_spec (1 + Z.of_nat 99 + 1) MAX_PAGES) as [_|Hle];
    [|unfold MAX_PAGES in Hle; lia].
  rewrite <- gathered_snoc.
  eexists. split; [done|]. rewrite total_line_sorted.
  unfold printed, world_after_pages, started, printed, after, cap_line.
  cbn [sent stdout fs]. fold url headers.
  split; [|split; [|done]].
  - rewrite <- (requests_from_pages url headers 100).
    unfold requests_from. rewrite (seq_S 99), fmap_app.
    by rewrite app_nil_r, !app_assoc.
  - unfold fetched_lines. rewrite (seq_S 99), fmap_app.
    by rewrite <- !app_assoc.
Qed.

Lemma page_cap_truncates_witness :
  ∃ w',
    get_star_history None Sample.strptime Sample.net_full "behave/behave"
      Sample.empty_world =
      (Ok (cumulative
             (merge_sort datetime_le
                (gathered (λ _, replicate 100 Sample.T1) 100))), w') ∧
    sent w' =
      sent Sample.empty_world ++
      ((λ p, mk_request (api_url "behave" "behave") (api_headers None)
               [("page", Z.of_nat p); ("per_page", 100)]) <$> seq 1 100) ∧
    stdout w' =
      stdout Sample.empty_world ++
      ["Fetching star data for " +:+ "behave/behave" +:+ "..."] ++
      fetched_lines 1 (λ _, Sample.items_full) 100 ++
      ["  Reached maximum page limit for " +:+ "behave/behave";
       total_line (gathered (λ _, replicate 100 Sample.T1) 100)] ∧
    fs w' = fs Sample.empty_world.
Proof.
  apply (page_cap_truncates None Sample.strptime Sample.net_full
           "behave/behave" "behave" "behave" Sample.empty_world
           (λ _, Sample.items_full) (λ _, replicate 100 Sample.T1)).
  - reflexivity.
  - intros i Hi. split; [|vm_compute; lia].
    split; [reflexivity|]. split; [reflexivity|]. vm_compute. reflexivity.
Defined.

Lemma length_gathered ds (items : nat → list json) k :
  (∀ i, (i < k)%nat → length (ds i) = length (items i)) →
  length (gathered ds k) = sum_list_with (λ i, length (items i)) (seq 0 k).
Proof.
  induction k as [|k IH]; intros Hlen; [done|].
  rewrite gathered_snoc, length_app, seq_S, sum_list_with_app. simpl.
  rewrite IH by (intros; apply Hlen; lia). rewrite Hlen by lia. lia.
Qed.

(** X6: when every answer is a successful page, the series returned is
    built from the timestamps of exactly the pages that were requested, page
    after page: nothing is dropped and nothing is counted twice, so its
    length is the total number of items of those pages, whatever their
    sizes. *)
Theorem series_of_requested_pages tok strptime network repo owner name w
    items ds :
  let url := api_url owner name in
  let headers := api_headers tok in
  unpack2 (split "/" repo) = Ok (owner, name) →
  (∀ i, (i < 100)%nat →
     good_page strptime (nth_answer network url headers w 1 i)
       (items i) (ds i)) →
  ∃ n w',
    (1 ≤ n)%nat ∧ (n ≤ 100)%nat ∧
    get_star_history tok strptime network repo w =
      (Ok (cumulative (merge_sort datetime_le (gathered ds n))), w') ∧
    sent w' =
      sent w ++
      ((λ p, mk_request url headers [("page", Z.of_nat p); ("per_page", 100)])
         <$> seq 1 n) ∧
    length (cumulative (merge_sort datetime_le (gathered ds n))) =
      sum_list_with (λ i, length (items i)) (seq 0 n).
Proof.
  intros url headers Hname Hgood.
  rewrite (get_star_history_unfold _ _ _ _ _ _ _ Hname). unfold collection.
  fold url headers.
  destruct (fetch_pages_all_good strptime network repo url headers
              (started repo w) items ds)
    as (n & w' & Hn1 & Hn2 & Hrun & Hsent & _).
  { intros i Hi. apply Hgood. unfold MAX_PAGES in *. lia. }
  rewrite Hrun. unfold MAX_PAGES in Hn2. eexists n, _.
  split; [done|]. split; [lia|]. split; [done|].
  split; [by rewrite <- requests_from_pages|].
  rewrite cumulative_length.
  rewrite (Permutation_length (merge_sort_Permutation _ _)).
  apply length_gathered. intros i Hi.
  eapply good_page_length, Hgood. lia.
Qed.

Lemma series_of_requested_pages_witness :
  ∃ n w',
    (1 ≤ n)%nat ∧ (n ≤ 100)%nat ∧
    get_star_history None Sample.strptime Sample.net_short "behave/behave"
      Sample.empty_world =
      (Ok (cumulative
             (merge_sort datetime_le
                (gathered (λ _, [Sample.T2; Sample.T1; Sample.T3]) n))),
       w') ∧
    sent w' =
      sent Sample.empty_world ++
      ((λ p, mk_request (api_url "behave" "behave") (api_headers None)
               [("page", Z.of_nat p); ("per_page", 100)]) <$> seq 1 n) ∧
    length (cumulative
              (merge_sort datetime_le
                 (gathered (λ _, [Sample.T2; Sample.T1; Sample.T3]) n))) =
      sum_list_with (λ _, length Sample.items213) (seq 0 n).
Proof.
  apply (series_of_requested_pages None Sample.strptime Sample.net_short
           "behave/behave" "behave" "behave" Sample.empty_world
           (λ _, Sample.items213) (λ _, [Sample.T2; Sample.T1; Sample.T3])).
  - reflexivity.
  - intros i _. repeat split.
Defined.

(** ** What the counts of a series mean *)

Lemma filter_all {A} (P : A → Prop) `{∀ x, Decision (P x)} (l : list A) :
  Forall P l → filter P l = l.
Proof.
  induction 1 as [|x l Hx _ IH]; [done|].
  by rewrite filter_cons_True, IH.
Qed.

Lemma filter_none {A} (P : A → Prop) `{∀ x, Decision (P x)} (l : list A) :
  Forall (λ x, ¬ P x) l → filter P l = [].
Proof.
  induction 1 as [|x l Hx _ IH]; [done|].
  by rewrite filter_cons_False, IH.
Qed.

(** In a sorted list the element at index [i] has at most [i] elements
    strictly before it and at least [i + 1] at or before it. *)
Lemma sorted_position (l : list datetime) i t :
  StronglySorted datetime_le l →
  l !! i = Some t →
  (stars_before t l ≤ i)%nat ∧ (i < stars_until t l)%nat.
Proof.
  intros Hsorted Hi.
  pose proof (lookup_lt_Some _ _ _ Hi) as Hlt.
  rewrite <- (take_drop_middle l i t Hi) in Hsorted |- *.
  assert (length (take i l) = i) as Hlen by (rewrite length_take; lia).
  apply StronglySorted_app in Hsorted as (Hcross & _ & Htail).
  apply StronglySorted_cons in Htail as [Hafter _].
  unfold stars_before, stars_until. rewrite !filter_app. split.
  - rewrite (filter_none _ (t :: drop (S i) l)).
    + rewrite app_nil_r. etrans; [apply length_filter|]. lia.
    + constructor.
      * intros [_ Hne]. done.
      * eapply Forall_impl; [exact Hafter|]. intros s Hts [Hst Hne].
        apply Hne. by apply (anti_symm datetime_le).
  - rewrite (filter_all _ (take i l)).
    + rewrite filter_cons_True by done. rewrite length_app. simpl. lia.
    + apply Forall_forall. intros s Hs. apply (Hcross s t); [done|].
      apply list_elem_of_here.
Qed.

Lemma elem_of_cumulative t c stars :
  (t, c) ∈ cumulative stars ↔
  ∃ i, stars !! i = Some t ∧ c = Z.of_nat i + 1.
Proof.
  unfold cumulative. rewrite list_elem_of_lookup. split.
  - intros [i Hi]. rewrite list_lookup_imap in Hi.
    destruct (stars !! i) as [t'|] eqn:Ht; [|done].
    simpl in Hi. injection Hi as <- <-. by exists i.
  - intros (i & Hi & ->). exists i. by rewrite list_lookup_imap, Hi.
Qed.

(** X7: every point [(t, c)] of the series [get_star_history] returns has
    a count [c] that lies above the number of stars given strictly before
    [t] and is at most the number of stars given at or before [t]; with no
    two stars at the same second it is exactly the number of stars up to
    [t]. *)
Theorem counts_are_running_totals tok strptime network repo owner name w
    stars w1 :
  unpack2 (split "/" repo) = Ok (owner, name) →
  collection tok strptime network repo owner name w = (Ok stars, w1) →
  ∃ result w2,
    get_star_history tok strptime network repo w = (Ok result, w2) ∧
    ∀ t c, (t, c) ∈ result →
      Z.of_nat (stars_before t stars) < c ∧
      c <= Z.of_nat (stars_until t stars) ∧
      (NoDup stars → c = Z.of_nat (stars_until t stars)).
Proof.
  intros Hname Hcoll. rewrite (get_star_history_unfold _ _ _ _ _ _ _ Hname).
  rewrite Hcoll. eexists _, _. split; [done|].
  intros t c Hin. apply elem_of_cumulative in Hin as (i & Hi & ->).
  pose proof (merge_sort_Permutation datetime_le stars) as Hperm.
  assert (StronglySorted datetime_le (merge_sort datetime_le stars)) as Hs
    by (apply StronglySorted_merge_sort; apply _).
  destruct (sorted_position _ _ _ Hs Hi) as [Hb Hu].
  unfold stars_before, stars_until in *. rewrite Hperm in Hb, Hu.
  split; [lia|]. split; [lia|].
  intros Hnd. rewrite <- Hperm in Hnd.
  cut (length (filter (λ s, datetime_le s t) stars) ≤ S i)%nat; [lia|].
  rewrite <- Hperm.
  rewrite <- (take_drop_middle _ i t Hi) in Hs, Hnd |- *.
  assert (length (take i (merge_sort datetime_le stars)) = i) as Hlen.
  { rewrite length_take. apply lookup_lt_Some in Hi. lia. }
  apply StronglySorted_app in Hs as (_ & _ & Htail).
  apply StronglySorted_cons in Htail as [Hafter _].
  apply NoDup_app in Hnd as (_ & _ & Hnd).
  apply NoDup_cons in Hnd as [Hfresh _].
  rewrite filter_app, filter_cons_True by done.
  rewrite (filter_none _ (drop (S i) _)).
  - rewrite length_app. simpl.
    pose proof (length_filter (λ s, datetime_le s t)
                  (take i (merge_sort datetime_le stars))). lia.
  - apply Forall_forall. intros s Hin Hst.
    assert (s = t) as ->.
    { apply (anti_symm datetime_le); [done|].
      by apply (proj1 (Forall_forall _ _) Hafter). }
    done.
Qed.

Lemma counts_are_running_totals_witness :
  ∃ result w2,
    get_star_history None Sample.strptime Sample.net_one "bittner/pyclean"
      Sample.empty_world = (Ok result, w2) ∧
    ∀ t c, (t, c) ∈ result →
      Z.of_nat (stars_before t [Sample.T2; Sample.T1; Sample.T3]) < c ∧
      c <= Z.of_nat (stars_until t [Sample.T2; Sample.T1; Sample.T3]) ∧
      (NoDup [Sample.T2; Sample.T1; Sample.T3] →
       c = Z.of_nat (stars_until t [Sample.T2; Sample.T1; Sample.T3])).
Proof.
  eapply (counts_are_running_totals None Sample.strptime Sample.net_one
            "bittner/pyclean" "bittner" "pyclean" Sample.empty_world
            [Sample.T2; Sample.T1; Sample.T3]).
  - reflexivity.
  - vm_compute. reflexivity.
Defined.

Lemma merge_sort_perm (l1 l2 : list datetime) :
  l1 ≡ₚ l2 → merge_sort datetime_le l1 = merge_sort datetime_le l2.
Proof.
  intros Hperm. apply (Sorted_unique datetime_le).
  - apply Sorted_merge_sort, _.
  - apply Sorted_merge_sort, _.
  - by rewrite !merge_sort_Permutation.
Qed.

(** X8: the series depends on which timestamps were collected, not on the
    order in which the pages delivered them: two collections that gathered
    the same timestamps in different orders, whatever the repository, the
    server and the credential, give the same series. *)
Theorem arrival_order_irrelevant tok strptime network repo owner name w
    tok' strptime' network' repo' owner' name' w' stars stars' w1 w1' :
  unpack2 (split "/" repo) = Ok (owner, name) →
  unpack2 (split "/" repo') = Ok (owner', name') →
  collection tok strptime network repo owner name w = (Ok stars, w1) →
  collection tok' strptime' network' repo' owner' name' w'
    = (Ok stars', w1') →
  stars ≡ₚ stars' →
  ∃ result w2 w2',
    get_star_history tok strptime network repo w = (Ok result, w2) ∧
    get_star_history tok' strptime' network' repo' w' = (Ok result, w2').
Proof.
  intros Hname Hname' Hcoll Hcoll' Hperm.
  rewrite (get_star_history_unfold _ _ _ _ _ _ _ Hname), Hcoll.
  rewrite (get_star_history_unfold _ _ _ _ _ _ _ Hname'), Hcoll'.
  rewrite (merge_sort_perm _ _ Hperm). by eexists _, _, _.
Qed.

Lemma arrival_order_irrelevant_witness :
  ∃ result w2 w2',
    get_star_history None Sample.strptime Sample.net_one "bittner/pyclean"
      Sample.empty_world = (Ok result, w2) ∧
    get_star_history (Some "ghp_example") Sample.strptime Sample.net_sorted
      "behave/behave" Sample.stale_world = (Ok result, w2').
Proof.
  eapply (arrival_order_irrelevant None Sample.strptime Sample.net_one
            "bittner/pyclean" "bittner" "pyclean" Sample.empty_world
            (Some "ghp_example") Sample.strptime Sample.net_sorted
            "behave/behave" "behave" "behave" Sample.stale_world
            [Sample.T2; Sample.T1; Sample.T3]
            [Sample.T1; Sample.T2; Sample.T3]).
  - reflexivity.
  - reflexivity.
  - vm_compute. reflexivity.
  - vm_compute. reflexivity.
  - apply Permutation_swap.
Defined.

(** X9: a call of [get_star_history] that returns normally has printed the
    line announcing the repository first and, last, the line with the total,
    and the total it reports is the number of points of the series it
    returns. *)
Theorem total_line_reports_series tok strptime network repo w result w' :
  get_star_history tok strptime network repo w = (Ok result, w') →
  ∃ lines,
    stdout w' =
      stdout w ++ ["Fetching star data for " +:+ repo +:+ "..."] ++ lines ++
      ["  Total stars: " +:+ pretty (Z.of_nat (length result))].
Proof.
  intros Hrun.
  destruct (unpack2 (split "/" repo)) as [[owner name]|e|] eqn:Hname.
  2:{ by rewrite (get_star_history_bad_name _ _ _ _ _ _ Hname) in Hrun. }
  2:{ by destruct (unpack2_outcome (split "/" repo)). }
  rewrite (get_star_history_unfold _ _ _ _ _ _ _ Hname) in Hrun.
  unfold collection in Hrun.
  destruct (fetch_pages_bounded strptime network repo (api_url owner name)
              (api_headers tok) (Z.to_nat MAX_PAGES) 1 [] (started repo w))
    as (o & w1 & n & Hall & _ & _ & _ & _ & _ & [lines Hout] & _);
    [unfold MAX_PAGES; lia..|].
  rewrite (Hall _ (le_n _)) in Hrun.
  destruct o as [stars|e|]; [|done..]. injection Hrun as <- <-.
  exists lines. unfold printed. cbn [stdout]. rewrite Hout.
  unfold started, printed, total_line. cbn [stdout].
  rewrite cumulative_length. by rewrite <- !app_assoc.
Qed.

Lemma total_line_reports_series_witness :
  ∃ lines,
    stdout
      (get_star_history None Sample.strptime Sample.net_one
         "bittner/pyclean" Sample.empty_world).2 =
    stdout Sample.empty_world ++
    ["Fetching star data for " +:+ "bittner/pyclean" +:+ "..."] ++ lines ++
    ["  Total stars: " +:+ pretty (Z.of_nat 3)].
Proof.
  apply (total_line_reports_series None Sample.strptime Sample.net_one
           "bittner/pyclean" Sample.empty_world
           [(Sample.T1, 1); (Sample.T2, 2); (Sample.T3, 3)]).
  vm_compute. reflexivity.
Defined.

(** ** When the renderer fails, and the palette *)

(** X10: [generate_chart] succeeds exactly when nothing of the wrong kind
    sits on its output paths.  Otherwise it raises [FileExistsError] for a
    regular file in the place of the directory, or [IsADirectoryError] for a
    directory in the place of the chart, prints nothing, and leaves what is
    at the chart's path as it was. *)
Theorem render_needs_free_paths repo_data w :
  ((∃ w', generate_chart repo_data w = (Ok (), w')) ↔ unobstructed (fs w)) ∧
  (¬ unobstructed (fs w) →
   ∃ e w',
     generate_chart repo_data w = (Raise e, w') ∧
     stdout w' = stdout w ∧
     fs w' !! OUTPUT_FILE = fs w !! OUTPUT_FILE ∧
     ((e = FileExistsError OUTPUT_DIR ∧
       ∃ c, fs w !! OUTPUT_DIR = Some (File c)) ∨
      (e = IsADirectoryError OUTPUT_FILE ∧
       fs w !! OUTPUT_FILE = Some Dir))).
Proof.
  split.
  - split.
    + intros [w' Hok]. destruct (unobstructed_dec (fs w)) as [|Hno]; [done|].
      destruct (generate_chart_failure repo_data w Hno)
        as (e & w'' & Hfail & _). by rewrite Hfail in Hok.
    + intros Hfree. rewrite (generate_chart_unobstructed _ _ Hfree).
      by eexists.
  - intros Hno.
    destruct (generate_chart_failure repo_data w Hno)
      as (e & w' & Hfail & Hout & _ & Hfile & Hkind).
    by exists e, w'.
Qed.

Lemma render_needs_free_paths_witness :
  ∃ e w',
    generate_chart Sample.one_series Sample.blocked_world = (Raise e, w') ∧
    stdout w' = stdout Sample.blocked_world ∧
    fs w' !! OUTPUT_FILE = fs Sample.blocked_world !! OUTPUT_FILE ∧
    ((e = FileExistsError OUTPUT_DIR ∧
      ∃ c, fs Sample.blocked_world !! OUTPUT_DIR = Some (File c)) ∨
     (e = IsADirectoryError OUTPUT_FILE ∧
      fs Sample.blocked_world !! OUTPUT_FILE = Some Dir)).
Proof.
  apply (proj2 (render_needs_free_paths Sample.one_series
                  Sample.blocked_world)).
  intros [[Hdir|Hdir] _]; vm_compute in Hdir; discriminate.
Defined.

Lemma COLORS_NoDup : NoDup COLORS.
Proof. apply (bool_decide_unpack (NoDup COLORS)). by vm_compute. Qed.

Lemma plotted_color (repo_data : dict series) j line :
  plotted repo_data j = Some line →
  COLORS !! (j `mod` 10)%nat = Some (plot_color line).
Proof.
  unfold plotted. destruct (repo_data !! j) as [[repo data]|]; [|done].
  simpl. destruct data as [|d data]; [done|].
  destruct (line_for_data j repo (d :: data)) as (color & Hc & ->); [done|].
  by intros [= <-].
Qed.

Lemma length_lines_from items : ∀ idx,
  length (omap id (imap (λ i, line_for (idx + i)) items)) =
  length (filter (λ entry, has_data entry = true) items).
Proof.
  intros idx. pose proof (lines_data_from items idx) as Hdata.
  apply (f_equal length) in Hdata. by rewrite !length_fmap in Hdata.
Qed.

(** The line of the entry at position [j] is found in the chart after the
    lines of the entries with data that come before it. *)
Lemma chart_lines_lookup (repo_data : dict series) j repo data :
  repo_data !! j = Some (repo, data) →
  data ≠ [] →
  ∃ line,
    chart_lines repo_data !! drawn_before repo_data j = Some line ∧
    plotted repo_data j = Some line ∧
    plot_label line = repo.
Proof.
  intros Hj Hne.
  destruct (line_for_data j repo data Hne) as (color & _ & Hl).
  exists (mk_plot data.*1 data.*2 repo color 2 "o").
  split; [|split; [|done]].
  2:{ unfold plotted. by rewrite Hj. }
  pose proof (lookup_lt_Some _ _ _ Hj) as Hlt.
  assert (length (take j repo_data) = j) as Hlen
    by (rewrite length_take; lia).
  unfold chart_lines.
  remember (drawn_before repo_data j) as n eqn:Hn.
  rewrite <- (take_drop_middle repo_data j (repo, data) Hj).
  rewrite imap_app, omap_app, imap_cons, Hlen, Nat.add_0_r.
  subst n. unfold drawn_before.
  rewrite <- (length_lines_from (take j repo_data) 0).
  rewrite lookup_app_r by done. rewrite Nat.sub_diag.
  cbn [omap list_omap]. by rewrite Hl.
Qed.

(** X11: the palette is cycled with period 10.  In the list of lines the
    renderer's loop draws for a mapping, the lines of two repositories with
    data have the same color exactly when the positions of the two in the
    mapping, empty entries counted, are equal modulo 10; so with at most ten
    repositories no two lines share a color. *)
Theorem palette_cycles (repo_data : dict series) lines i j repo_i data_i
    repo_j data_j :
  plot_all 0 repo_data [] = Ok lines →
  repo_data !! i = Some (repo_i, data_i) → data_i ≠ [] →
  repo_data !! j = Some (repo_j, data_j) → data_j ≠ [] →
  ∃ line_i line_j,
    lines !! drawn_before repo_data i = Some line_i ∧
    lines !! drawn_before repo_data j = Some line_j ∧
    plot_label line_i = repo_i ∧ plot_label line_j = repo_j ∧
    (plot_color line_i = plot_color line_j ↔ (i `mod` 10 = j `mod` 10)%nat) ∧
    ((length repo_data ≤ 10)%nat → i ≠ j →
     plot_color line_i ≠ plot_color line_j).
Proof.
  rewrite plot_all_chart_lines. intros [= <-] Hi Hdi Hj Hdj.
  destruct (chart_lines_lookup repo_data i repo_i data_i Hi Hdi)
    as (line_i & Hli & Hpi & Hri).
  destruct (chart_lines_lookup repo_data j repo_j data_j Hj Hdj)
    as (line_j & Hlj & Hpj & Hrj).
  exists line_i, line_j. split; [done|]. split; [done|].
  split; [done|]. split; [done|].
  pose proof (plotted_color _ _ _ Hpi) as Hci.
  pose proof (plotted_color _ _ _ Hpj) as Hcj.
  assert (plot_color line_i = plot_color line_j ↔
          (i `mod` 10 = j `mod` 10)%nat) as Hiff.
  { split.
    - intros Heq. rewrite Heq in Hci.
      by apply (NoDup_lookup _ _ _ _ COLORS_NoDup Hci Hcj).
    - intros Heq. rewrite Heq in Hci. congruence. }
  split; [done|]. intros Hlen Hne Heq. apply Hiff in Heq.
  apply lookup_lt_Some in Hi, Hj.
  rewrite !Nat.mod_small in Heq by lia. done.
Qed.

Lemma palette_cycles_witness :
  ∃ line_i line_j,
    [mk_plot [Sample.T1; Sample.T2] [1; 2] "bittner/pyclean" "#1f77b4" 2 "o";
     mk_plot [Sample.T3] [1] "behave/behave" "#2ca02c" 2 "o"]
      !! drawn_before Sample.gap_series 0 = Some line_i ∧
    [mk_plot [Sample.T1; Sample.T2] [1; 2] "bittner/pyclean" "#1f77b4" 2 "o";
     mk_plot [Sample.T3] [1] "behave/behave" "#2ca02c" 2 "o"]
      !! drawn_before Sample.gap_series 2 = Some line_j ∧
    plot_label line_i = "bittner/pyclean" ∧
    plot_label line_j = "behave/behave" ∧
    (plot_color line_i = plot_color line_j ↔ (0 `mod` 10 = 2 `mod` 10)%nat) ∧
    ((length Sample.gap_series ≤ 10)%nat → 0%nat ≠ 2%nat →
     plot_color line_i ≠ plot_color line_j).
Proof.
  apply (palette_cycles Sample.gap_series
           [mk_plot [Sample.T1; Sample.T2] [1; 2] "bittner/pyclean"
              "#1f77b4" 2 "o";
            mk_plot [Sample.T3] [1] "behave/behave" "#2ca02c" 2 "o"]
           0 2 "bittner/pyclean" [(Sample.T1, 1); (Sample.T2, 2)]
           "behave/behave" [(Sample.T3, 1)]).
  - reflexivity.
  - reflexivity.
  - discriminate.
  - reflexivity.
  - discriminate.
Defined.

(** ** What a run leaves on disk *)

(** X12: a run of [main] that does not return 0 has not written the chart:
    whether it returned 1 or was cut short by an exception, what is at the
    chart's path, a chart left by an earlier run for instance, is what was
    there before; a run that returns 1 has changed nothing on disk at all. *)
Theorem chart_only_on_success tok strptime network w o w' :
  main tok strptime network w = (o, w') →
  o ≠ Ok 0 →
  fs w' !! OUTPUT_FILE = fs w !! OUTPUT_FILE ∧
  (o = Ok 1 → fs w' = fs w).
Proof.
  rewrite main_unfold. intros Hmain Hnot0.
  destruct (fetch_all_run tok strptime network REPOS [] (warned tok w))
    as (o1 & w1 & Hfetch & _ & _ & Hfs).
  rewrite warned_fs in Hfs. rewrite Hfetch in Hmain.
  destruct o1 as [repo_data|e|].
  2,3: injection Hmain as <- <-; by rewrite Hfs.
  destruct (py_any (dict_values repo_data)).
  2:{ injection Hmain as <- <-. cbn [printed fs]. by rewrite Hfs. }
  destruct (unobstructed_dec (fs w1)) as [Hfree|Hblocked].
  - rewrite (generate_chart_unobstructed _ _ Hfree) in Hmain.
    by injection Hmain as <- <-.
  - destruct (generate_chart_failure repo_data w1 Hblocked)
      as (e & w2 & Hfail & _ & _ & Hfile & _).
    rewrite Hfail in Hmain. injection Hmain as <- <-.
    rewrite Hfile, Hfs. by split.
Qed.

Lemma chart_only_on_success_witness :
  fs (main None Sample.strptime Sample.net_down Sample.stale_world).2
    !! OUTPUT_FILE = fs Sample.stale_world !! OUTPUT_FILE ∧
  ((main None Sample.strptime Sample.net_down Sample.stale_world).1 = Ok 1 →
   fs (main None Sample.strptime Sample.net_down Sample.stale_world).2
   = fs Sample.stale_world).
Proof.
  apply (chart_only_on_success None Sample.strptime Sample.net_down
           Sample.stale_world).
  - apply surjective_pairing.
  - vm_compute. discriminate.
Defined.

(** X13: a run of [main] that returns 0 has gone through the whole loop
    over the repositories, and the file at the chart's path is the SVG image
    of the chart of exactly the mapping that loop built; the last two lines
    printed are the one about the saved chart and the one about success. *)
Theorem success_writes_fetched_chart tok strptime network w w' :
  main tok strptime network w = (Ok 0, w') →
  ∃ repo_data w1 lines,
    fetch_all tok strptime network REPOS [] (warned tok w)
    = (Ok repo_data, w1) ∧
    fs w' = written repo_data (fs w) ∧
    fs w' !! OUTPUT_FILE = Some (File (Image "svg" (chart_of repo_data))) ∧
    stdout w' = stdout w ++ lines ++ [saved_line; success_line].
Proof.
  rewrite main_unfold. intros Hmain.
  destruct (fetch_all_run tok strptime network REPOS [] (warned tok w))
    as (o1 & w1 & Hfetch & _ & [[lines Hout] _] & Hfs).
  rewrite warned_fs in Hfs. rewrite Hfetch in Hmain.
  destruct o1 as [repo_data|e|]; [|done..].
  destruct (py_any (dict_values repo_data)); [|done].
  destruct (unobstructed_dec (fs w1)) as [Hfree|Hblocked].
  2:{ destruct (generate_chart_failure repo_data w1 Hblocked)
        as (e & w2 & Hfail & _). by rewrite Hfail in Hmain. }
  rewrite (generate_chart_unobstructed _ _ Hfree) in Hmain.
  injection Hmain as <-. cbn [printed fs stdout].
  assert (∃ first, stdout (warned tok w) = stdout w ++ first) as [first Hw].
  { unfold warned. destruct (token_set tok).
    - exists []. by rewrite app_nil_r.
    - by exists warning_lines. }
  exists repo_data, w1, (first ++ lines). split; [done|].
  rewrite Hfs. split; [done|]. split.
  - unfold written. by rewrite lookup_insert_eq.
  - rewrite Hout, Hw. by rewrite <- !app_assoc.
Qed.

Lemma success_writes_fetched_chart_witness :
  ∃ repo_data w1 lines,
    fetch_all None Sample.strptime Sample.net_one REPOS []
      (warned None Sample.stale_world) = (Ok repo_data, w1) ∧
    fs (main None Sample.strptime Sample.net_one Sample.stale_world).2
    = written repo_data (fs Sample.stale_world) ∧
    fs (main None Sample.strptime Sample.net_one Sample.stale_world).2
      !! OUTPUT_FILE = Some (File (Image "svg" (chart_of repo_data))) ∧
    stdout (main None Sample.strptime Sample.net_one Sample.stale_world).2
    = stdout Sample.stale_world ++ lines ++ [saved_line; success_line].
Proof.
  assert ((main None Sample.strptime Sample.net_one Sample.stale_world).1
          = Ok 0) as Hcode by (vm_compute; reflexivity).
  apply (success_writes_fetched_chart None Sample.strptime Sample.net_one
           Sample.stale_world
           (main None Sample.strptime Sample.net_one Sample.stale_world).2).
  destruct (main None Sample.strptime Sample.net_one Sample.stale_world)
    as [o w'].
  simpl in Hcode. by rewrite Hcode.
Defined.

(** ** The requests of a whole run *)

Lemma fetch_all_requests tok strptime network repos : ∀ acc w,
  ∃ o w' ns,
    fetch_all tok strptime network repos acc w = (o, w') ∧
    (length ns ≤ length repos)%nat ∧
    Forall (λ n, (n ≤ 100)%nat) ns ∧
    sent w' = sent w ++ run_requests tok repos ns.
Proof.
  induction repos as [|repo repos IH]; intros acc w.
  - exists (Ok acc), w, []. split; [done|]. split; [done|].
    split; [constructor|]. unfold run_requests. simpl.
    by rewrite app_nil_r.
  - simpl. unfold bind.
    destruct (get_star_history_requests tok strptime network repo w)
      as (o & w1 & n & -> & Ho & Hn & _ & Hsent & _).
    destruct o as [data|e|]; [| |done].
    + destruct (IH (dict_set repo data acc) w1)
        as (o' & w' & ns & -> & Hlen & Hns & Hsent').
      exists o', w', (n :: ns). split; [done|]. split; [simpl; lia|].
      split; [by constructor|].
      rewrite Hsent', Hsent. unfold run_requests. simpl.
      by rewrite <- app_assoc.
    + exists (Raise e), w1, [n]. split; [done|]. split; [simpl; lia|].
      split; [by apply Forall_cons|].
      rewrite Hsent. unfold run_requests. simpl.
      destruct repos; simpl; by rewrite app_nil_r.
Qed.

Lemma length_run_requests tok repos : ∀ ns,
  Forall (λ n, (n ≤ 100)%nat) ns →
  (length (run_requests tok repos ns) ≤ 100 * length repos)%nat.
Proof.
  unfold run_requests.
  induction repos as [|repo repos IH]; intros ns Hns; [done|].
  destruct Hns as [|n ns Hn Hns]; [simpl; lia|].
  simpl. rewrite length_app, length_requests_from.
  specialize (IH ns Hns). lia.
Qed.

(** X14: the requests of a run of [main] are, repository after repository
    in the order of the configuration, those for pages 1 to [n] of that
    repository's stargazers address, with [n] at most 100, each with the
    headers of the run; nothing else is ever requested, there is at least
    one request and there are at most 600. *)
Theorem run_requests_in_order tok strptime network w :
  ∃ o w' ns,
    main tok strptime network w = (o, w') ∧
    (length ns ≤ length REPOS)%nat ∧
    Forall (λ n, (n ≤ 100)%nat) ns ∧
    sent w' = sent w ++ run_requests tok REPOS ns ∧
    (1 ≤ length (run_requests tok REPOS ns))%nat ∧
    (length (run_requests tok REPOS ns) ≤ 600)%nat.
Proof.
  destruct (main_run tok strptime network w)
    as (o & w' & Hmain & _ & _ & Hmore).
  rewrite main_unfold in Hmain.
  destruct (fetch_all_requests tok strptime network REPOS [] (warned tok w))
    as (o1 & w1 & ns & Hfetch & Hlen & Hns & Hsent).
  assert (sent (warned tok w) = sent w) as Hw
    by (unfold warned; by destruct (token_set tok)).
  rewrite Hw in Hsent. rewrite Hfetch in Hmain.
  assert (sent w' = sent w1) as Hsame.
  { destruct o1 as [repo_data|e|]; [|by injection Hmain as <- <-..].
    destruct (py_any (dict_values repo_data));
      [|by injection Hmain as <- <-].
    destruct (unobstructed_dec (fs w1)) as [Hfree|Hblocked].
    - rewrite (generate_chart_unobstructed _ _ Hfree) in Hmain.
      by injection Hmain as <- <-.
    - destruct (generate_chart_failure repo_data w1 Hblocked)
        as (e & w2 & Hfail & _ & Hs & _).
      rewrite Hfail in Hmain. by injection Hmain as <- <-. }
  exists o, w', ns. split; [by rewrite main_unfold, Hfetch|].
  split; [done|]. split; [done|]. split; [by rewrite Hsame|].
  split.
  - rewrite Hsame, Hsent, length_app in Hmore. lia.
  - pose proof (length_run_requests tok REPOS ns Hns) as Hle.
    unfold REPOS in Hle at 2. simpl in Hle. lia.
Qed.

(** ** The empty credential *)

(** X15: a [GITHUB_TOKEN] that is set but empty is treated in every respect
    as one that is not set: the same warning, the same requests without an
    [Authorization] header, the same result. *)
Theorem empty_token_is_no_token strptime network w :
  main (Some "") strptime network w = main None strptime network w ∧
  api_headers (Some "") = [("Accept", "application/vnd.github.v3.star+json")] ∧
  ∀ repo,
    get_star_history (Some "") strptime network repo w =
    get_star_history None strptime network repo w.
Proof. split; [reflexivity|]. split; reflexivity. Qed.

(** ** The lines of the chart of a run *)






(** ** What a run prints first *)

Lemma get_star_history_starts tok strptime network repo owner name w :
  unpack2 (split "/" repo) = Ok (owner, name) →
  ∃ o w' lines,
    get_star_history tok strptime network repo w = (o, w') ∧
    run_extends tok w w' ∧
    stdout w' =
      stdout w ++ ["Fetching star data for " +:+ repo +:+ "..."] ++ lines.
Proof.
  intros Hname.
  destruct (get_star_history_run tok strptime network repo w)
    as (o & w' & Hrun & _ & Hext & _).
  exists o, w'. rewrite Hrun.
  rewrite (get_star_history_unfold _ _ _ _ _ _ _ Hname) in Hrun.
  unfold collection in Hrun.
  destruct (fetch_pages_bounded strptime network repo (api_url owner name)
              (api_headers tok) (Z.to_nat MAX_PAGES) 1 [] (started repo w))
    as (o1 & w1 & n & Hall & _ & _ & _ & _ & _ & [lines Hout] & _);
    [unfold MAX_PAGES; lia..|].
  rewrite (Hall _ (le_n _)) in Hrun.
  unfold started, printed in Hout. cbn [stdout] in Hout.
  destruct o1 as [stars|e|]; injection Hrun as <- <-.
  - exists (lines ++ [total_line (merge_sort datetime_le stars)]).
    split; [done|]. split; [done|]. unfold printed. cbn [stdout].
    by rewrite Hout, <- !app_assoc.
  - exists lines. split; [done|]. split; [done|].
    by rewrite Hout, <- !app_assoc.
  - exists lines. split; [done|]. split; [done|].
    by rewrite Hout, <- !app_assoc.
Qed.

(** X17: a run whose [GITHUB_TOKEN] is unset or empty begins by printing
    the two warning lines, and the line announcing the first repository
    follows them; with a credential the run begins with that line at once,
    without a warning before it. *)
Theorem warning_only_without_token tok strptime network w :
  ∃ o w' lines,
    main tok strptime network w = (o, w') ∧
    stdout w' =
      stdout w ++ (if token_set tok then [] else warning_lines) ++
      ["Fetching star data for " +:+ "bittner/pyclean" +:+ "..."] ++ lines.
Proof.
  rewrite main_unfold.
  assert (∀ acc w0,
            fetch_all tok strptime network REPOS acc w0 =
            (data <- get_star_history tok strptime network "bittner/pyclean" ;;
             fetch_all tok strptime network (tail REPOS)
               (dict_set "bittner/pyclean" data acc)) w0) as -> by done.
  unfold bind at 1.
  destruct (get_star_history_starts tok strptime network "bittner/pyclean"
              "bittner" "pyclean" (warned tok w) eq_refl)
    as (o0 & w0 & lines0 & -> & _ & Hout0).
  assert (stdout (warned tok w) =
          stdout w ++ (if token_set tok then [] else warning_lines)) as Hw.
  { unfold warned. destruct (token_set tok); [|done]. by rewrite app_nil_r. }
  rewrite Hw in Hout0.
  assert (∀ w2, run_extends tok w0 w2 →
            ∃ lines, stdout w2 =
              stdout w ++ (if token_set tok then [] else warning_lines) ++
              ["Fetching star data for " +:+ "bittner/pyclean" +:+ "..."] ++
              lines) as Hthen.
  { intros w2 [[more Hmore] _]. exists (lines0 ++ more).
    rewrite Hmore, Hout0. by rewrite <- !app_assoc. }
  destruct o0 as [data|e|].
  2,3: destruct (Hthen w0 (run_extends_refl tok w0)) as [lines Hl];
       by eexists _, _, lines.
  destruct (fetch_all_run tok strptime network
              (tail REPOS) (dict_set "bittner/pyclean" data []) w0)
    as (o1 & w1 & -> & _ & Hext1 & _).
  destruct o1 as [repo_data|e|].
  2,3: destruct (Hthen w1 Hext1) as [lines Hl]; by eexists _, _, lines.
  destruct (py_any (dict_values repo_data)).
  - destruct (generate_chart_run tok repo_data w1)
      as (o2 & w2 & -> & _ & Hext2).
    pose proof (run_extends_trans _ _ _ _ Hext1 Hext2) as Hext12.
    destruct o2 as [[]|e|].
    + destruct (Hthen (printed w2 [success_line])) as [lines Hl].
      { eapply run_extends_trans; [exact Hext12|apply printed_extends]. }
      by eexists _, _, lines.
    + destruct (Hthen w2 Hext12) as [lines Hl]. by eexists _, _, lines.
    + destruct (Hthen w2 Hext12) as [lines Hl]. by eexists _, _, lines.
  - destruct (Hthen (printed w1 [failure_line])) as [lines Hl].
    { eapply run_extends_trans; [exact Hext1|apply printed_extends]. }
    by eexists _, _, lines.
Qed.
